(** * RIVION face capture: the client-side detection-and-capture loop

    A shallow embedding of [FaceCaptureComponent] (the React component that
    owns the camera stream, the 100 ms detection timer and the capture
    button) as an event-driven state machine, and the properties of the
    capture loop proved or refuted on it.

    Reading guide.  The component is a function component with five
    [useState] cells, four [useRef] cells and three [useEffect] blocks.
    - Every [useState] cell and every ref is a field of [State].
    - What the browser holds for the component (promises not yet settled,
      granted media streams, interval timers) is kept in further fields.
    - Calls that leave the component ([alert], [console.*],
      [getUserMedia], [setInterval], [detectAllFaces], [onCapture]) are
      recorded in [log], newest first.
    - An [async] function is split at its [await]: the part before runs in
      the event that calls it, the part after in the event that settles the
      promise.  JavaScript runs each such part to completion. *)

From Stdlib Require Import List String Bool Arith PArith ZArith Lia Floats.
Import ListNotations.

Set Warnings "-inexact-float".

Open Scope string_scope.
Open Scope bool_scope.

(** ** Data *)

(** JavaScript numbers are IEEE-754 binary64 values: Rocq's primitive
    [float]. *)

(** [detection.detection.box] after [faceapi.resizeResults]. *)
Record Box := { width : float; height : float }.

Record FaceDetection := { box : Box }.

(** One element of the array returned by
    [detectAllFaces(...).withFaceLandmarks().withFaceExpressions().withAgeAndGender()]. *)
Record Detection := {
  detection : FaceDetection;
  expressions : list (string * float);
  age : float;
  gender : string;
  genderProbability : float
}.

(** A track of a [MediaStream]: [track.stop()] moves it from [live] to [ended]. *)
Inductive ReadyState := live | ended.

(** [stream.getTracks()]. *)
Definition MediaStream := list ReadyState.

(** The [<video>] element behind [videoRef].  [srcObject] is an index into
    the streams the browser has granted; [onloadedmetadata] tells whether
    the handler of line 57 is installed. *)
Record Video := {
  srcObject : option nat;
  onloadedmetadata : bool;
  videoWidth : float;
  videoHeight : float
}.

(** The [<canvas>] element behind [displayCanvasRef]. *)
Record Canvas := { canvas_width : float; canvas_height : float }.

(** Calls that leave the component. *)
Inductive Effect :=
| Alert (msg : string)
| ConsoleLog (msg : string)
| ConsoleError (msg : string)
| LoadModels
| GetUserMedia
| Play
| SetInterval (id : positive)
| DetectAllFaces
| OnCapture (base64Image : string).

(** How an awaited promise settles. *)
Inductive Settled (A : Type) :=
| Fulfilled (value : A)
| Rejected.
Arguments Fulfilled {A} value.
Arguments Rejected {A}.

Record State := {
  (* React: is the component still in the tree *)
  mounted : bool;
  (* useState, lines 9-13 *)
  faceDetected : bool;
  facesCount : nat;
  modelsLoaded : bool;
  isStreaming : bool;
  faceQuality : string;
  (* useRef, lines 6-8 and 14 ([canvasRef] is never attached nor read) *)
  videoRef : option Video;
  displayCanvasRef : option Canvas;
  detectionIntervalRef : option positive;
  (* React: did the last run of the effect return its cleanup function *)
  cameraCleanupSet : bool;
  detectionCleanupSet : bool;
  (* browser: promises not yet settled *)
  modelsPending : bool;
  cameraPending : nat;
  detectionsPending : nat;
  (* browser: streams granted so far, running interval timers *)
  streams : list MediaStream;
  timers : list positive;
  nextTimer : positive;
  log : list Effect
}.

(** Field updates. *)

Definition with_mounted v (s : State) : State :=
  {| mounted := v; faceDetected := faceDetected s;
     facesCount := facesCount s; modelsLoaded := modelsLoaded s;
     isStreaming := isStreaming s; faceQuality := faceQuality s;
     videoRef := videoRef s; displayCanvasRef := displayCanvasRef s;
     detectionIntervalRef := detectionIntervalRef s;
     cameraCleanupSet := cameraCleanupSet s;
     detectionCleanupSet := detectionCleanupSet s;
     modelsPending := modelsPending s; cameraPending := cameraPending s;
     detectionsPending := detectionsPending s; streams := streams s;
     timers := timers s; nextTimer := nextTimer s; log := log s |}.

Definition with_faceDetected v (s : State) : State :=
  {| mounted := mounted s; faceDetected := v; facesCount := facesCount s;
     modelsLoaded := modelsLoaded s; isStreaming := isStreaming s;
     faceQuality := faceQuality s; videoRef := videoRef s;
     displayCanvasRef := displayCanvasRef s;
     detectionIntervalRef := detectionIntervalRef s;
     cameraCleanupSet := cameraCleanupSet s;
     detectionCleanupSet := detectionCleanupSet s;
     modelsPending := modelsPending s; cameraPending := cameraPending s;
     detectionsPending := detectionsPending s; streams := streams s;
     timers := timers s; nextTimer := nextTimer s; log := log s |}.

Definition with_facesCount v (s : State) : State :=
  {| mounted := mounted s; faceDetected := faceDetected s; facesCount := v;
     modelsLoaded := modelsLoaded s; isStreaming := isStreaming s;
     faceQuality := faceQuality s; videoRef := videoRef s;
     displayCanvasRef := displayCanvasRef s;
     detectionIntervalRef := detectionIntervalRef s;
     cameraCleanupSet := cameraCleanupSet s;
     detectionCleanupSet := detectionCleanupSet s;
     modelsPending := modelsPending s; cameraPending := cameraPending s;
     detectionsPending := detectionsPending s; streams := streams s;
     timers := timers s; nextTimer := nextTimer s; log := log s |}.

Definition with_modelsLoaded v (s : State) : State :=
  {| mounted := mounted s; faceDetected := faceDetected s;
     facesCount := facesCount s; modelsLoaded := v;
     isStreaming := isStreaming s; faceQuality := faceQuality s;
     videoRef := videoRef s; displayCanvasRef := displayCanvasRef s;
     detectionIntervalRef := detectionIntervalRef s;
     cameraCleanupSet := cameraCleanupSet s;
     detectionCleanupSet := detectionCleanupSet s;
     modelsPending := modelsPending s; cameraPending := cameraPending s;
     detectionsPending := detectionsPending s; streams := streams s;
     timers := timers s; nextTimer := nextTimer s; log := log s |}.

Definition with_isStreaming v (s : State) : State :=
  {| mounted := mounted s; faceDetected := faceDetected s;
     facesCount := facesCount s; modelsLoaded := modelsLoaded s;
     isStreaming := v; faceQuality := faceQuality s; videoRef := videoRef s;
     displayCanvasRef := displayCanvasRef s;
     detectionIntervalRef := detectionIntervalRef s;
     cameraCleanupSet := cameraCleanupSet s;
     detectionCleanupSet := detectionCleanupSet s;
     modelsPending := modelsPending s; cameraPending := cameraPending s;
     detectionsPending := detectionsPending s; streams := streams s;
     timers := timers s; nextTimer := nextTimer s; log := log s |}.

Definition with_faceQuality v (s : State) : State :=
  {| mounted := mounted s; faceDetected := faceDetected s;
     facesCount := facesCount s; modelsLoaded := modelsLoaded s;
     isStreaming := isStreaming s; faceQuality := v; videoRef := videoRef s;
     displayCanvasRef := displayCanvasRef s;
     detectionIntervalRef := detectionIntervalRef s;
     cameraCleanupSet := cameraCleanupSet s;
     detectionCleanupSet := detectionCleanupSet s;
     modelsPending := modelsPending s; cameraPending := cameraPending s;
     detectionsPending := detectionsPending s; streams := streams s;
     timers := timers s; nextTimer := nextTimer s; log := log s |}.

Definition with_videoRef v (s : State) : State :=
  {| mounted := mounted s; faceDetected := faceDetected s;
     facesCount := facesCount s; modelsLoaded := modelsLoaded s;
     isStreaming := isStreaming s; faceQuality := faceQuality s;
     videoRef := v; displayCanvasRef := displayCanvasRef s;
     detectionIntervalRef := detectionIntervalRef s;
     cameraCleanupSet := cameraCleanupSet s;
     detectionCleanupSet := detectionCleanupSet s;
     modelsPending := modelsPending s; cameraPending := cameraPending s;
     detectionsPending := detectionsPending s; streams := streams s;
     timers := timers s; nextTimer := nextTimer s; log := log s |}.

Definition with_displayCanvasRef v (s : State) : State :=
  {| mounted := mounted s; faceDetected := faceDetected s;
     facesCount := facesCount s; modelsLoaded := modelsLoaded s;
     isStreaming := isStreaming s; faceQuality := faceQuality s;
     videoRef := videoRef s; displayCanvasRef := v;
     detectionIntervalRef := detectionIntervalRef s;
     cameraCleanupSet := cameraCleanupSet s;
     detectionCleanupSet := detectionCleanupSet s;
     modelsPending := modelsPending s; cameraPending := cameraPending s;
     detectionsPending := detectionsPending s; streams := streams s;
     timers := timers s; nextTimer := nextTimer s; log := log s |}.

Definition with_detectionIntervalRef v (s : State) : State :=
  {| mounted := mounted s; faceDetected := faceDetected s;
     facesCount := facesCount s; modelsLoaded := modelsLoaded s;
     isStreaming := isStreaming s; faceQuality := faceQuality s;
     videoRef := videoRef s; displayCanvasRef := displayCanvasRef s;
     detectionIntervalRef := v; cameraCleanupSet := cameraCleanupSet s;
     detectionCleanupSet := detectionCleanupSet s;
     modelsPending := modelsPending s; cameraPending := cameraPending s;
     detectionsPending := detectionsPending s; streams := streams s;
     timers := timers s; nextTimer := nextTimer s; log := log s |}.

Definition with_cameraCleanupSet v (s : State) : State :=
  {| mounted := mounted s; faceDetected := faceDetected s;
     facesCount := facesCount s; modelsLoaded := modelsLoaded s;
     isStreaming := isStreaming s; faceQuality := faceQuality s;
     videoRef := videoRef s; displayCanvasRef := displayCanvasRef s;
     detectionIntervalRef := detectionIntervalRef s; cameraCleanupSet := v;
     detectionCleanupSet := detectionCleanupSet s;
     modelsPending := modelsPending s; cameraPending := cameraPending s;
     detectionsPending := detectionsPending s; streams := streams s;
     timers := timers s; nextTimer := nextTimer s; log := log s |}.

Definition with_detectionCleanupSet v (s : State) : State :=
  {| mounted := mounted s; faceDetected := faceDetected s;
     facesCount := facesCount s; modelsLoaded := modelsLoaded s;
     isStreaming := isStreaming s; faceQuality := faceQuality s;
     videoRef := videoRef s; displayCanvasRef := displayCanvasRef s;
     detectionIntervalRef := detectionIntervalRef s;
     cameraCleanupSet := cameraCleanupSet s; detectionCleanupSet := v;
     modelsPending := modelsPending s; cameraPending := cameraPending s;
     detectionsPending := detectionsPending s; streams := streams s;
     timers := timers s; nextTimer := nextTimer s; log := log s |}.

Definition with_modelsPending v (s : State) : State :=
  {| mounted := mounted s; faceDetected := faceDetected s;
     facesCount := facesCount s; modelsLoaded := modelsLoaded s;
     isStreaming := isStreaming s; faceQuality := faceQuality s;
     videoRef := videoRef s; displayCanvasRef := displayCanvasRef s;
     detectionIntervalRef := detectionIntervalRef s;
     cameraCleanupSet := cameraCleanupSet s;
     detectionCleanupSet := detectionCleanupSet s; modelsPending := v;
     cameraPending := cameraPending s;
     detectionsPending := detectionsPending s; streams := streams s;
     timers := timers s; nextTimer := nextTimer s; log := log s |}.

Definition with_cameraPending v (s : State) : State :=
  {| mounted := mounted s; faceDetected := faceDetected s;
     facesCount := facesCount s; modelsLoaded := modelsLoaded s;
     isStreaming := isStreaming s; faceQuality := faceQuality s;
     videoRef := videoRef s; displayCanvasRef := displayCanvasRef s;
     detectionIntervalRef := detectionIntervalRef s;
     cameraCleanupSet := cameraCleanupSet s;
     detectionCleanupSet := detectionCleanupSet s;
     modelsPending := modelsPending s; cameraPending := v;
     detectionsPending := detectionsPending s; streams := streams s;
     timers := timers s; nextTimer := nextTimer s; log := log s |}.

Definition with_detectionsPending v (s : State) : State :=
  {| mounted := mounted s; faceDetected := faceDetected s;
     facesCount := facesCount s; modelsLoaded := modelsLoaded s;
     isStreaming := isStreaming s; faceQuality := faceQuality s;
     videoRef := videoRef s; displayCanvasRef := displayCanvasRef s;
     detectionIntervalRef := detectionIntervalRef s;
     cameraCleanupSet := cameraCleanupSet s;
     detectionCleanupSet := detectionCleanupSet s;
     modelsPending := modelsPending s; cameraPending := cameraPending s;
     detectionsPending := v; streams := streams s; timers := timers s;
     nextTimer := nextTimer s; log := log s |}.

Definition with_streams v (s : State) : State :=
  {| mounted := mounted s; faceDetected := faceDetected s;
     facesCount := facesCount s; modelsLoaded := modelsLoaded s;
     isStreaming := isStreaming s; faceQuality := faceQuality s;
     videoRef := videoRef s; displayCanvasRef := displayCanvasRef s;
     detectionIntervalRef := detectionIntervalRef s;
     cameraCleanupSet := cameraCleanupSet s;
     detectionCleanupSet := detectionCleanupSet s;
     modelsPending := modelsPending s; cameraPending := cameraPending s;
     detectionsPending := detectionsPending s; streams := v;
     timers := timers s; nextTimer := nextTimer s; log := log s |}.

Definition with_timers v (s : State) : State :=
  {| mounted := mounted s; faceDetected := faceDetected s;
     facesCount := facesCount s; modelsLoaded := modelsLoaded s;
     isStreaming := isStreaming s; faceQuality := faceQuality s;
     videoRef := videoRef s; displayCanvasRef := displayCanvasRef s;
     detectionIntervalRef := detectionIntervalRef s;
     cameraCleanupSet := cameraCleanupSet s;
     detectionCleanupSet := detectionCleanupSet s;
     modelsPending := modelsPending s; cameraPending := cameraPending s;
     detectionsPending := detectionsPending s; streams := streams s;
     timers := v; nextTimer := nextTimer s; log := log s |}.

Definition with_nextTimer v (s : State) : State :=
  {| mounted := mounted s; faceDetected := faceDetected s;
     facesCount := facesCount s; modelsLoaded := modelsLoaded s;
     isStreaming := isStreaming s; faceQuality := faceQuality s;
     videoRef := videoRef s; displayCanvasRef := displayCanvasRef s;
     detectionIntervalRef := detectionIntervalRef s;
     cameraCleanupSet := cameraCleanupSet s;
     detectionCleanupSet := detectionCleanupSet s;
     modelsPending := modelsPending s; cameraPending := cameraPending s;
     detectionsPending := detectionsPending s; streams := streams s;
     timers := timers s; nextTimer := v; log := log s |}.

Definition with_log v (s : State) : State :=
  {| mounted := mounted s; faceDetected := faceDetected s;
     facesCount := facesCount s; modelsLoaded := modelsLoaded s;
     isStreaming := isStreaming s; faceQuality := faceQuality s;
     videoRef := videoRef s; displayCanvasRef := displayCanvasRef s;
     detectionIntervalRef := detectionIntervalRef s;
     cameraCleanupSet := cameraCleanupSet s;
     detectionCleanupSet := detectionCleanupSet s;
     modelsPending := modelsPending s; cameraPending := cameraPending s;
     detectionsPending := detectionsPending s; streams := streams s;
     timers := timers s; nextTimer := nextTimer s; log := v |}.

(** ** Messages *)

Definition MODELS_ALERT := "Failed to load face detection models. Please refresh the page.".
Definition CAMERA_ALERT := "Please allow camera access to use this app.".
Definition NO_FACE_ALERT := "⚠️ Please face the camera. No face detected!".
Definition CAPTURE_ALERT := "Failed to capture image".

Definition GOOD_POSITIONING := "✅ Good positioning".
Definition MOVE_CLOSER := "📏 Move closer to camera".
Definition MOVE_BACK := "📏 Move back from camera".

(** ** React state setters

    A setter called after the component left the tree is ignored. *)

Definition emit (e : Effect) (s : State) : State := with_log (e :: log s) s.

Definition setFaceDetected (v : bool) (s : State) : State :=
  if mounted s then with_faceDetected v s else s.
Definition setFacesCount (v : nat) (s : State) : State :=
  if mounted s then with_facesCount v s else s.
Definition setModelsLoaded (v : bool) (s : State) : State :=
  if mounted s then with_modelsLoaded v s else s.
Definition setIsStreaming (v : bool) (s : State) : State :=
  if mounted s then with_isStreaming v s else s.
Definition setFaceQuality (v : string) (s : State) : State :=
  if mounted s then with_faceQuality v s else s.

(** ** Quality heuristic, lines 124-135 *)

Open Scope float_scope.

Definition faceArea (b : Box) : float := width b * height b.

Definition videoArea (canvas : Canvas) : float :=
  canvas_width canvas * canvas_height canvas.

Definition facePercentage (b : Box) (canvas : Canvas) : float :=
  (faceArea b / videoArea canvas) * 100.

(** The [if / else if / else] of lines 129-135, as the label it hands to
    [setFaceQuality]. *)
Definition qualityLabel (p : float) : string :=
  if (15 <? p) && (p <? 80) then GOOD_POSITIONING
  else if p <=? 15 then MOVE_CLOSER
  else MOVE_BACK.

Close Scope float_scope.

(** ** First effect: load the models, lines 17-39 *)

Definition loadModels (s : State) : State :=
  with_modelsPending true (emit LoadModels s).

(** After [await Promise.all([...])] fulfils: lines 30-31. *)
Definition loadModels_fulfilled (s : State) : State :=
  emit (ConsoleLog "✅ All face detection models loaded")
       (setModelsLoaded true s).

(** After it rejects: the [catch] of lines 32-35. *)
Definition loadModels_rejected (s : State) : State :=
  emit (Alert MODELS_ALERT) (emit (ConsoleError "❌ Error loading models:") s).

(** ** Second effect: start the camera, lines 42-76 *)

(** [startCamera] up to its [await]: the request of lines 47-53. *)
Definition startCamera (s : State) : State :=
  with_cameraPending (S (cameraPending s)) (emit GetUserMedia s).

(** The effect body: the guard of line 43, then [startCamera()]; the
    cleanup function is returned only past the guard. *)
Definition cameraEffect (s : State) : State :=
  if negb (modelsLoaded s) then with_cameraCleanupSet false s
  else with_cameraCleanupSet true (startCamera s).

(** After [getUserMedia] fulfils with [stream]: lines 55-61.  The browser
    has created the stream whether or not the component still has a
    [<video>] to show it in. *)
Definition startCamera_fulfilled (stream : MediaStream) (s : State) : State :=
  let id := List.length (streams s) in
  let s1 := with_streams (streams s ++ [stream]) s in
  match videoRef s1 with
  | Some video =>
      with_videoRef
        (Some {| srcObject := Some id; onloadedmetadata := true;
                 videoWidth := videoWidth video;
                 videoHeight := videoHeight video |}) s1
  | None => s1
  end.

(** After it rejects: the [catch] of lines 62-65. *)
Definition startCamera_rejected (s : State) : State :=
  emit (Alert CAMERA_ALERT) (emit (ConsoleError "❌ Camera access error:") s).

(** The handler installed at line 57.  With [videoRef.current] null the
    call [videoRef.current.play()] throws and the handler ends there. *)
Definition onloadedmetadata_handler (s : State) : State :=
  match videoRef s with
  | Some _ => setIsStreaming true (emit Play s)
  | None => s
  end.

(** [stream.getTracks().forEach(track => track.stop())] on stream [id]. *)
Fixpoint stopTracks (id : nat) (ss : list MediaStream) : list MediaStream :=
  match ss with
  | [] => []
  | stream :: rest =>
      match id with
      | O => map (fun _ => ended) stream :: rest
      | S id' => stream :: stopTracks id' rest
      end
  end.

(** The cleanup function of lines 70-75. *)
Definition cameraCleanup (s : State) : State :=
  match videoRef s with
  | Some video =>
      match srcObject video with
      | Some id => setIsStreaming false (with_streams (stopTracks id (streams s)) s)
      | None => s
      end
  | None => s
  end.

(** ** Third effect: the detection timer, lines 79-156 *)

(** [detectFaces] up to its [await]: the guard of line 83 and the call of
    lines 90-94. *)
Definition detectFaces (s : State) : State :=
  match videoRef s, displayCanvasRef s with
  | Some _, Some _ =>
      with_detectionsPending (S (detectionsPending s)) (emit DetectAllFaces s)
  | _, _ => s
  end.

(** The body of the [forEach] of lines 114-136 for one detection.  The
    bindings of lines 115-121 ([age], [gender], [dominantExpression]) are
    never read. *)
Definition forEach_body (canvas : Canvas) (s : State) (d : Detection) : State :=
  setFaceQuality (qualityLabel (facePercentage (box (detection d)) canvas)) s.

(** [detectFaces] after its [await], lines 96-145.  [video] and [canvas]
    are the elements read at lines 86-87; [resizeResults] keeps the order
    and the number of detections, and the argument is its result.  The
    awaited detection call is the one step taken to be able to throw; a
    rejection lands in the [catch] of lines 143-145.  Once the component
    has left the tree the two elements are detached and the setters are
    ignored, so nothing of the state changes. *)
Definition detectFaces_settled (r : Settled (list Detection)) (s : State) : State :=
  match r with
  | Rejected => emit (ConsoleError "Detection error:") s
  | Fulfilled detections =>
      match videoRef s, displayCanvasRef s with
      | Some video, Some _ =>
          let canvas := {| canvas_width := videoWidth video;
                           canvas_height := videoHeight video |} in
          let s1 := with_displayCanvasRef (Some canvas) s in
          let s2 := if (0 <? List.length detections)%nat
                    then fold_left (forEach_body canvas) detections s1
                    else s1 in
          setFaceDetected (0 <? List.length detections)%nat
            (setFacesCount (List.length detections) s2)
      | _, _ => s
      end
  end.

(** The effect body: the guard of line 80, then [setInterval] at line 149. *)
Definition detectionEffect (s : State) : State :=
  if negb (modelsLoaded s) || negb (isStreaming s)
  then with_detectionCleanupSet false s
  else
    let id := nextTimer s in
    with_detectionCleanupSet true
      (with_detectionIntervalRef (Some id)
         (with_timers (id :: timers s)
            (with_nextTimer (Pos.succ id) (emit (SetInterval id) s)))).

(** The cleanup function of lines 151-155.  Timer ids are positive, so a
    stored id is always truthy. *)
Definition detectionCleanup (s : State) : State :=
  match detectionIntervalRef s with
  | Some id => with_timers (remove Pos.eq_dec id (timers s)) s
  | None => s
  end.

(** ** Capture, lines 159-185 *)

(** What the environment does during one capture: [encoded] is the result
    of lines 168-177 ([None] when drawing or encoding throws), and
    [onCapture_throws] tells whether the caller's callback throws. *)
Record CaptureEnv := { encoded : option string; onCapture_throws : bool }.

(** The [catch] of lines 181-184. *)
Definition capture_catch (s : State) : State :=
  emit (Alert CAPTURE_ALERT) (emit (ConsoleError "Capture error:") s).

Definition handleCapture (env : CaptureEnv) (s : State) : State :=
  if negb (faceDetected s) then emit (Alert NO_FACE_ALERT) s
  else
    match videoRef s with
    | None => s
    | Some _ =>
        match encoded env with
        | Some base64Image =>
            let s1 := emit (OnCapture base64Image)
                        (emit (ConsoleLog "✅ Face captured successfully") s) in
            if onCapture_throws env then capture_catch s1 else s1
        | None => capture_catch s
        end
    end.

(** ** Teardown: both cleanup functions, in the order of their effects *)

Definition teardown (s : State) : State := detectionCleanup (cameraCleanup s).

(** ** The React runtime around the component *)

Definition newVideo : Video :=
  {| srcObject := None; onloadedmetadata := false;
     videoWidth := 0%float; videoHeight := 0%float |}.

(** A canvas element starts 300 by 150. *)
Definition newCanvas : Canvas :=
  {| canvas_width := 300%float; canvas_height := 150%float |}.

(** Rendering, lines 187-276: the [<video>] and the [<canvas>] are part of
    the tree only in the [modelsLoaded] branch (lines 198-273); React
    creates them the first time they appear and attaches the refs. *)
Definition render (s : State) : State :=
  if modelsLoaded s then
    with_displayCanvasRef
      (Some (match displayCanvasRef s with Some c => c | None => newCanvas end))
      (with_videoRef
         (Some (match videoRef s with Some v => v | None => newVideo end)) s)
  else s.

(** After a handler changed the state from [prev] to [s]: render, then
    re-run each effect whose dependency list changed, its previous cleanup
    first.  Dependencies: [[modelsLoaded]] for the camera effect (line 76),
    [[modelsLoaded, isStreaming]] for the detection effect (line 156). *)
Definition commit (prev s : State) : State :=
  if mounted s then
    let s1 := render s in
    let s2 :=
      if Bool.eqb (modelsLoaded prev) (modelsLoaded s1) then s1
      else cameraEffect (if cameraCleanupSet s1 then cameraCleanup s1 else s1) in
    if Bool.eqb (modelsLoaded prev) (modelsLoaded s2)
       && Bool.eqb (isStreaming prev) (isStreaming s2)
    then s2
    else detectionEffect
           (if detectionCleanupSet s2 then detectionCleanup s2 else s2)
  else s.

Definition detachRefs (s : State) : State :=
  with_displayCanvasRef None (with_videoRef None s).

(** Unmounting runs the cleanup functions that are set.  React versions
    differ on whether the DOM refs are cleared before the cleanups run
    ([refsCleared = true]) or after; both orders are covered. *)
Definition unmount (refsCleared : bool) (s : State) : State :=
  let s0 := with_mounted false s in
  let s1 := if refsCleared then detachRefs s0 else s0 in
  let s2 := if cameraCleanupSet s1 then cameraCleanup s1 else s1 in
  let s3 := if detectionCleanupSet s2 then detectionCleanup s2 else s2 in
  detachRefs (with_detectionCleanupSet false (with_cameraCleanupSet false s3)).

(** What can happen to a mounted component. *)
Inductive Event :=
| ModelsFulfil                                (* Promise.all fulfils *)
| ModelsReject                                (* Promise.all rejects *)
| CameraFulfil (tracks : nat)                 (* getUserMedia grants a stream *)
| CameraReject                                (* getUserMedia rejects *)
| LoadedMetadata (w h : float)               (* the video knows its size *)
| Tick (id : positive)                        (* interval timer [id] fires *)
| DetectionSettle (r : Settled (list Detection))
| Click (env : CaptureEnv)                    (* handleCapture is called *)
| Unmount (refsCleared : bool).               (* the caller drops the component *)

Definition setVideoSize (w h : float) (s : State) : State :=
  match videoRef s with
  | Some video =>
      with_videoRef
        (Some {| srcObject := srcObject video;
                 onloadedmetadata := onloadedmetadata video;
                 videoWidth := w; videoHeight := h |}) s
  | None => s
  end.

(** Does the [<video>] have a stream and the handler of line 57. *)
Definition awaitsMetadata (s : State) : bool :=
  match videoRef s with
  | Some video =>
      match srcObject video with
      | Some _ => onloadedmetadata video
      | None => false
      end
  | None => false
  end.

(** One event.  An event the browser cannot deliver in the current state
    (a promise that is not pending, a timer that is not running, ...)
    leaves the state as it is. *)
Definition step (s : State) (e : Event) : State :=
  match e with
  | ModelsFulfil =>
      if modelsPending s
      then commit s (loadModels_fulfilled (with_modelsPending false s))
      else s
  | ModelsReject =>
      if modelsPending s
      then loadModels_rejected (with_modelsPending false s)
      else s
  | CameraFulfil n =>
      match cameraPending s with
      | S k => startCamera_fulfilled (repeat live n) (with_cameraPending k s)
      | O => s
      end
  | CameraReject =>
      match cameraPending s with
      | S k => startCamera_rejected (with_cameraPending k s)
      | O => s
      end
  | LoadedMetadata w h =>
      if awaitsMetadata s
      then commit s (onloadedmetadata_handler (setVideoSize w h s))
      else s
  | Tick id =>
      if existsb (Pos.eqb id) (timers s) then detectFaces s else s
  | DetectionSettle r =>
      match detectionsPending s with
      | S k => detectFaces_settled r (with_detectionsPending k s)
      | O => s
      end
  | Click env =>
      if mounted s then handleCapture env s else s
  | Unmount refsCleared =>
      if mounted s then unmount refsCleared s else s
  end.

Definition run (s : State) (es : list Event) : State := fold_left step es s.

(** The [useState] and [useRef] initial values of lines 6-14. *)
Definition initial : State :=
  {| mounted := true; faceDetected := false; facesCount := 0;
     modelsLoaded := false; isStreaming := false; faceQuality := "";
     videoRef := None; displayCanvasRef := None;
     detectionIntervalRef := None;
     cameraCleanupSet := false; detectionCleanupSet := false;
     modelsPending := false; cameraPending := 0; detectionsPending := 0;
     streams := []; timers := []; nextTimer := 1%positive; log := [] |}.

(** The first render and the first run of the three effects. *)
Definition mount : State :=
  detectionEffect (cameraEffect (loadModels (render initial))).

(** ** Observations on a state *)

Definition onCaptureCalls (l : list Effect) : list string :=
  flat_map (fun e => match e with OnCapture img => [img] | _ => [] end) l.

Definition isLive (t : ReadyState) : bool :=
  match t with live => true | ended => false end.

(** Some granted stream still has a live track: the camera is on. *)
Definition cameraOn (s : State) : bool :=
  existsb (existsb isLive) (streams s).

Definition refsAttached (s : State) : bool :=
  match videoRef s, displayCanvasRef s with
  | Some _, Some _ => true
  | _, _ => false
  end.

(** ** A completed poll in closed form (used to state the properties) *)

(** The label a poll stores for detection [d] when the video is [video]:
    lines 97-98 copy the video size to the canvas, lines 124-135 classify. *)
Definition labelOf (video : Video) (d : Detection) : string :=
  qualityLabel
    (facePercentage (box (detection d))
       {| canvas_width := videoWidth video; canvas_height := videoHeight video |}).

(** What a fulfilled poll leaves in a mounted component. *)
Definition polled (video : Video) (ds : list Detection) (s : State) : State :=
  let s1 :=
    with_displayCanvasRef
      (Some {| canvas_width := videoWidth video;
               canvas_height := videoHeight video |}) s in
  with_faceDetected (match ds with [] => false | _ :: _ => true end)
    (with_facesCount (List.length ds)
       (match ds with
        | [] => s1
        | d :: rest => with_faceQuality (labelOf video (last rest d)) s1
        end)).

(** ** Sample executions *)

Definition face (w h : float) : Detection :=
  {| detection := {| box := {| width := w; height := h |} |};
     expressions := [("neutral", 0.9%float); ("happy", 0.1%float)];
     age := 30%float; gender := "female"; genderProbability := 0.8%float |}.

(** In a 640 by 480 frame: 100 by 100 is about 3.3 percent of the frame,
    300 by 300 about 29.3 percent. *)
Definition smallFace : Detection := face 100 100.
Definition goodFace : Detection := face 300 300.

(** Models load, the camera is granted, the video reports 640 by 480: the
    component is streaming and timer 1 is running. *)
Definition toStreaming : list Event :=
  [ModelsFulfil; CameraFulfil 1; LoadedMetadata 640 480].

Definition streaming : State := run mount toStreaming.

Definition video640 : Video :=
  {| srcObject := Some 0; onloadedmetadata := true;
     videoWidth := 640%float; videoHeight := 480%float |}.

Definition okCapture : CaptureEnv :=
  {| encoded := Some "data:image/jpeg;base64,AAAA"; onCapture_throws := false |}.

(** ** The invariant of the capture loop

    What holds in every state the component can reach from [mount]:
    - a pending detection call of a mounted component has its elements;
    - [faceDetected] is [facesCount > 0];
    - while the models are loading, or after loading failed, nothing of
      the camera has been touched;
    - [getUserMedia] is pending at most once, and while it is pending, or
      after it was refused, the video has no stream and the component is
      not streaming;
    - while the component is not streaming no timer has been started. *)
Record Inv (s : State) : Prop := {
  inv_refs : mounted s = true -> detectionsPending s <> 0 -> refsAttached s = true;
  inv_flag : faceDetected s = (0 <? facesCount s)%nat;
  inv_models_pending : modelsPending s = true ->
     modelsLoaded s = false /\ ~ In (Alert MODELS_ALERT) (log s);
  inv_models_failed : In (Alert MODELS_ALERT) (log s) -> modelsLoaded s = false;
  inv_loading : modelsLoaded s = false ->
     cameraPending s = 0 /\ ~ In GetUserMedia (log s) /\
     ~ In (Alert CAMERA_ALERT) (log s) /\ isStreaming s = false /\
     videoRef s = None /\ cameraCleanupSet s = false;
  inv_camera_once : cameraPending s <= 1;
  inv_camera_pending : cameraPending s <> 0 ->
     ~ In (Alert CAMERA_ALERT) (log s) /\ awaitsMetadata s = false /\
     isStreaming s = false;
  inv_camera_failed : In (Alert CAMERA_ALERT) (log s) ->
     isStreaming s = false /\ cameraPending s = 0 /\ awaitsMetadata s = false;
  inv_idle : isStreaming s = false ->
     timers s = [] /\ forall id, ~ In (SetInterval id) (log s)
}.

(** ** Counting outside calls, and what the component holds *)

Definition isLoadModels (e : Effect) : bool :=
  match e with LoadModels => true | _ => false end.
Definition isGetUserMedia (e : Effect) : bool :=
  match e with GetUserMedia => true | _ => false end.
Definition isSetInterval (e : Effect) : bool :=
  match e with SetInterval _ => true | _ => false end.
Definition isDetectAllFaces (e : Effect) : bool :=
  match e with DetectAllFaces => true | _ => false end.

(** The event in which a detection call returns its result. *)
Definition isFulfilledSettle (e : Event) : bool :=
  match e with
  | DetectionSettle (Fulfilled _) => true
  | _ => false
  end.

(** How many calls of one kind the log holds. *)
Definition calls (p : Effect -> bool) (l : list Effect) : nat :=
  List.length (filter p l).

(** The values [faceQuality] is ever given: the initial empty string
    (line 13) and the three labels of lines 130-134. *)
Definition isQualityLabel (q : string) : Prop :=
  q = GOOD_POSITIONING \/ q = MOVE_CLOSER \/ q = MOVE_BACK.

(** What the component holds of the browser, in every reachable state. *)
Record Resources (s : State) : Prop := {
  res_load : calls isLoadModels (log s) = 1;
  res_request :
    calls isGetUserMedia (log s) <= 1 /\
    (modelsLoaded s = false -> calls isGetUserMedia (log s) = 0);
  res_streams :
    List.length (streams s) + cameraPending s <= calls isGetUserMedia (log s);
  res_interval :
    calls isSetInterval (log s) <= 1 /\
    (isStreaming s = false -> calls isSetInterval (log s) = 0);
  res_timers :
    timers s = [] \/
    (mounted s = true /\ detectionCleanupSet s = true /\
     exists id, timers s = [id] /\ detectionIntervalRef s = Some id);
  res_elements :
    mounted s = true -> modelsLoaded s = true ->
    refsAttached s = true /\ cameraCleanupSet s = true;
  res_video :
    mounted s = true ->
    match streams s with
    | [] => forall v, videoRef s = Some v -> srcObject v = None
    | stream :: _ =>
        forallb isLive stream = true /\
        exists v, videoRef s = Some v /\ srcObject v = Some 0
    end
}.

(** What must have happened before, in every reachable state. *)
Record Causality (s : State) : Prop := {
  cau_playing :
    isStreaming s = true -> In Play (log s) /\ In GetUserMedia (log s);
  cau_pending : detectionsPending s <> 0 -> In DetectAllFaces (log s);
  cau_detect : In DetectAllFaces (log s) -> isStreaming s = true;
  cau_face :
    faceDetected s = true ->
    In DetectAllFaces (log s) /\ isQualityLabel (faceQuality s);
  cau_label : faceQuality s = "" \/ isQualityLabel (faceQuality s);
  cau_capture :
    forall img, In (OnCapture img) (log s) -> In DetectAllFaces (log s)
}.

(** The component after its teardown: out of the tree, no element, no
    timer. *)
Definition Stopped (s : State) : Prop :=
  mounted s = false /\ refsAttached s = false /\ videoRef s = None /\
  timers s = [].

(** * The rest of the front end

    The HTTP client ([api.js]), the details form
    ([MetadataFormComponent]) and the application shell ([App]) that
    mounts the capture component, the form and the results in turn. *)

From Stdlib Require Import Ascii.

(** ** The HTTP client, api.js *)

Module Api.

(** What a client function gives back: the [data] of the response, or a
    thrown [Error] with its [message]. *)
Inductive Result (A : Type) :=
| Ok (data : A)
| Err (message : string).
Arguments Ok {A} data.
Arguments Err {A} message.

(** The body of an error response as far as the client reads it. *)
Record ErrorData := { detail : option string; error : option string }.

(** The error axios rejects with.  [response] is undefined when no
    response arrived; its [data] may be missing, or an object with or
    without the two fields. *)
Record AxiosError := { response : option (option ErrorData) }.

(** How the awaited [api.get] / [api.post] settles. *)
Inductive Http (A : Type) :=
| Response (data : A)
| Failure (e : AxiosError).
Arguments Response {A} data.
Arguments Failure {A} e.

(** [x || d] on an optional string: undefined and the empty string are
    falsy. *)
Definition orElse (x : option string) (d : string) : string :=
  match x with
  | Some s => if String.eqb s "" then d else s
  | None => d
  end.

(** [error.response?.data?.detail] and [error.response?.data?.error]. *)
Definition response_data_detail (e : AxiosError) : option string :=
  match response e with
  | Some (Some d) => detail d
  | _ => None
  end.

Definition response_data_error (e : AxiosError) : option string :=
  match response e with
  | Some (Some d) => error d
  | _ => None
  end.

(** Each function after its [await]: what it writes to the console (the
    response interceptor of lines 23-29 first) and what it gives back. *)
Definition searchFaces {A} (h : Http A) : list string * Result A :=
  match h with
  | Response data => ([], Ok data)
  | Failure e =>
      (["API Error:"], Err (orElse (response_data_detail e) "Search failed"))
  end.

Definition healthCheck {A} (h : Http A) : list string * Result A :=
  match h with
  | Response data => ([], Ok data)
  | Failure e => (["API Error:"], Err "Backend unreachable")
  end.

(** [emotion ? { emotion } : {}], line 51. *)
Definition getLocalImages_params (emotion : option string)
  : list (string * string) :=
  match emotion with
  | Some e => if String.eqb e "" then [] else [("emotion", e)]
  | None => []
  end.

Definition getLocalImages {A} (h : Http A) : list string * Result A :=
  match h with
  | Response data => ([], Ok data)
  | Failure e =>
      (["API Error:"; "Error fetching local images:"],
       Err (orElse (response_data_error e) "Failed to fetch local images"))
  end.

Definition getStorageStats {A} (h : Http A) : list string * Result A :=
  match h with
  | Response data => ([], Ok data)
  | Failure e =>
      (["API Error:"; "Error fetching storage stats:"],
       Err (orElse (response_data_error e) "Failed to fetch storage stats"))
  end.

Definition analyzeFace {A} (h : Http A) : list string * Result A :=
  match h with
  | Response data => ([], Ok data)
  | Failure e =>
      (["API Error:"; "Error analyzing face:"],
       Err (orElse (response_data_error e) "Failed to analyze face"))
  end.

End Api.

(** ** The details form, MetadataFormComponent *)

Module Form.

(** [String.prototype.length] counts UTF-16 code units; the strings here
    are UTF-8.  An ASCII byte and the lead byte of a two- or three-byte
    sequence stand for one unit, the lead byte of a four-byte sequence
    for two (a surrogate pair), a continuation byte for none. *)
Definition utf16_units (c : ascii) : nat :=
  let n := nat_of_ascii c in
  if (n <? 128)%nat then 1
  else if (n <? 192)%nat then 0
  else if (n <? 240)%nat then 1
  else 2.

Fixpoint utf16_length (s : string) : nat :=
  match s with
  | EmptyString => 0
  | String c rest => utf16_units c + utf16_length rest
  end.

(** The rules registered for [userName] at lines 36-39, as
    react-hook-form applies them: [required] rejects the empty string,
    then [minLength] rejects a value of fewer than two code units.  The
    result is [errors.userName.message]. *)
Definition validate_userName (userName : string) : option string :=
  if String.eqb userName "" then Some "Name is required"
  else if (utf16_length userName <? 2)%nat
       then Some "Name must be at least 2 characters"
       else None.

(** The object handed to [onSearch], lines 15-21. *)
Record Payload := {
  session_id : string;
  user_name : string;
  captured_image : option string;
  privacy_policy_agreed : bool;
  timestamp : string
}.

(** [uuidv4()] and [new Date().toISOString()] at the time of the call. *)
Record Clock := { uuid : string; now : string }.

(** The component's own state: the [useState] of line 7 and the
    [formState.errors] of [useForm]. *)
Record State := { privacyAgreed : bool; errors_userName : option string }.

Definition initial : State :=
  {| privacyAgreed := false; errors_userName := None |}.

Inductive Effect :=
| Alert (msg : string)
| OnSearch (payload : Payload).

(** The checkbox handler of line 53. *)
Definition setPrivacyAgreed (checked : bool) (s : State) : State :=
  {| privacyAgreed := checked; errors_userName := errors_userName s |}.

(** [onSubmit], lines 9-24. *)
Definition onSubmit (capturedImage : option string) (clock : Clock)
           (userName : string) (s : State) : list Effect :=
  if negb (privacyAgreed s) then [Alert "Please agree to the privacy policy"]
  else
    [OnSearch {| session_id := uuid clock;
                 user_name := userName;
                 captured_image := capturedImage;
                 privacy_policy_agreed := privacyAgreed s;
                 timestamp := now clock |}].

(** [handleSubmit(onSubmit)], line 27: [onSubmit] runs only when the
    registered field passes its rules; otherwise the error is kept for
    lines 42-44 to show. *)
Definition handleSubmit (capturedImage : option string) (clock : Clock)
           (userName : string) (s : State) : State * list Effect :=
  match validate_userName userName with
  | Some message =>
      ({| privacyAgreed := privacyAgreed s;
          errors_userName := Some message |}, [])
  | None =>
      ({| privacyAgreed := privacyAgreed s; errors_userName := None |},
       onSubmit capturedImage clock userName s)
  end.

(** The [disabled] attribute of the submit button, line 69. *)
Definition submitDisabled (isLoading : bool) (s : State) : bool :=
  isLoading || negb (privacyAgreed s).

End Form.

(** ** The application shell, App *)

Module App.

Inductive Stage := capture | form_stage | results_stage.

(** One entry of [similar_images], as ResultsComponent reads it. *)
Record SimilarImage := {
  image_base64 : option string;
  filename : option string;
  emotion : string;
  confidence : option float;
  similarity : option float;
  source : string
}.

(** The [data] of the analysis response, as ResultsComponent reads it. *)
Record AnalysisResult := {
  success : bool;
  result_error : option string;
  dominant_emotion : string;
  emotion_confidence : float;
  all_emotions : list (string * float);
  statement : string;
  similar_images : list SimilarImage
}.

(** The [File] of lines 137-139. *)
Record File := { name : string; type : string; bytes : list nat }.

(** The [FormData] of lines 142-145.  [append] turns the boolean into the
    text of its value. *)
Record FormData := {
  image : File;
  user_name : string;
  privacy_agreed : bool
}.

Inductive Effect :=
| ConsoleError (msg : string)
| Alert (msg : string)
| HealthCheck
| AnalyzeFace (formData : FormData).

(** What the browser gives the shell: [atob], which throws on text that
    is not base64, and the message of the [TypeError] thrown by a method
    call on null. *)
Record Env := {
  atob : string -> Api.Result string;
  typeErrorMessage : string
}.

Record State := {
  (* useState, lines 96-101 *)
  stage : Stage;
  capturedImage : option string;
  results : option AnalysisResult;
  isLoading : bool;
  error : option string;
  backendOnline : bool;
  (* the MetadataFormComponent instance, while it is in the tree *)
  form : option Form.State;
  (* browser: requests not yet settled *)
  healthPending : bool;
  analyzePending : nat;
  log : list Effect
}.

Definition with_stage v (s : State) : State :=
  {| stage := v; capturedImage := capturedImage s; results := results s;
     isLoading := isLoading s; error := error s;
     backendOnline := backendOnline s; form := form s;
     healthPending := healthPending s; analyzePending := analyzePending s;
     log := log s |}.

Definition with_capturedImage v (s : State) : State :=
  {| stage := stage s; capturedImage := v; results := results s;
     isLoading := isLoading s; error := error s;
     backendOnline := backendOnline s; form := form s;
     healthPending := healthPending s; analyzePending := analyzePending s;
     log := log s |}.

Definition with_results v (s : State) : State :=
  {| stage := stage s; capturedImage := capturedImage s; results := v;
     isLoading := isLoading s; error := error s;
     backendOnline := backendOnline s; form := form s;
     healthPending := healthPending s; analyzePending := analyzePending s;
     log := log s |}.

Definition with_isLoading v (s : State) : State :=
  {| stage := stage s; capturedImage := capturedImage s;
     results := results s; isLoading := v; error := error s;
     backendOnline := backendOnline s; form := form s;
     healthPending := healthPending s; analyzePending := analyzePending s;
     log := log s |}.

Definition with_error v (s : State) : State :=
  {| stage := stage s; capturedImage := capturedImage s;
     results := results s; isLoading := isLoading s; error := v;
     backendOnline := backendOnline s; form := form s;
     healthPending := healthPending s; analyzePending := analyzePending s;
     log := log s |}.

Definition with_backendOnline v (s : State) : State :=
  {| stage := stage s; capturedImage := capturedImage s;
     results := results s; isLoading := isLoading s; error := error s;
     backendOnline := v; form := form s; healthPending := healthPending s;
     analyzePending := analyzePending s; log := log s |}.

Definition with_form v (s : State) : State :=
  {| stage := stage s; capturedImage := capturedImage s;
     results := results s; isLoading := isLoading s; error := error s;
     backendOnline := backendOnline s; form := v;
     healthPending := healthPending s; analyzePending := analyzePending s;
     log := log s |}.

Definition with_healthPending v (s : State) : State :=
  {| stage := stage s; capturedImage := capturedImage s;
     results := results s; isLoading := isLoading s; error := error s;
     backendOnline := backendOnline s; form := form s; healthPending := v;
     analyzePending := analyzePending s; log := log s |}.

Definition with_analyzePending v (s : State) : State :=
  {| stage := stage s; capturedImage := capturedImage s;
     results := results s; isLoading := isLoading s; error := error s;
     backendOnline := backendOnline s; form := form s;
     healthPending := healthPending s; analyzePending := v; log := log s |}.

Definition with_log v (s : State) : State :=
  {| stage := stage s; capturedImage := capturedImage s;
     results := results s; isLoading := isLoading s; error := error s;
     backendOnline := backendOnline s; form := form s;
     healthPending := healthPending s; analyzePending := analyzePending s;
     log := v |}.

Definition emit (e : Effect) (s : State) : State := with_log (e :: log s) s.

Definition emitAll (msgs : list string) (s : State) : State :=
  fold_left (fun st m => emit (ConsoleError m) st) msgs s.

(** [checkBackend], lines 105-113, up to its [await]. *)
Definition checkBackend (s : State) : State :=
  with_healthPending true (emit HealthCheck s).

(** ... and after it. *)
Definition checkBackend_settled (h : Api.Http unit) (s : State) : State :=
  let '(msgs, r) := Api.healthCheck h in
  let s1 := emitAll msgs (with_healthPending false s) in
  match r with
  | Api.Ok _ => with_backendOnline true s1
  | Api.Err _ => emit (ConsoleError "Backend offline:")
                      (with_backendOnline false s1)
  end.

(** [handleCapture], lines 118-122. *)
Definition handleCapture (base64Image : string) (s : State) : State :=
  with_error None
    (with_stage form_stage (with_capturedImage (Some base64Image) s)).

(** [str.split(',')]. *)
Fixpoint split_comma (s : string) : list string :=
  match s with
  | EmptyString => [EmptyString]
  | String c rest =>
      match split_comma rest with
      | [] => [String c EmptyString]
      | piece :: pieces =>
          if Ascii.eqb c ","%char
          then EmptyString :: piece :: pieces
          else String c piece :: pieces
      end
  end.

(** Does the text hold a comma. *)
Fixpoint hasComma (s : string) : bool :=
  match s with
  | EmptyString => false
  | String c rest => Ascii.eqb c ","%char || hasComma rest
  end.

(** [base64Image.split(',')[1] || base64Image], line 131. *)
Definition base64Data (base64Image : string) : string :=
  Api.orElse (nth_error (split_comma base64Image) 1) base64Image.

(** The loop of lines 133-136: the char code of every character. *)
Definition byteNumbers (byteCharacters : string) : list nat :=
  map nat_of_ascii (list_ascii_of_string byteCharacters).

(** The [catch] and the [finally] of lines 150-155. *)
Definition handleSearch_catch (message : string) (s : State) : State :=
  with_isLoading false
    (emit (ConsoleError "Analysis error:")
       (with_error
          (Some (Api.orElse (Some message) "Analysis failed. Please try again."))
          s)).

(** [handleSearch], lines 124-147, up to its [await]; an exception before
    the [await] goes through [catch] and [finally] at once. *)
Definition handleSearch (env : Env) (payload : Form.Payload) (s : State)
  : State :=
  let s1 := with_error None (with_isLoading true s) in
  match Form.captured_image payload with
  | None => handleSearch_catch (typeErrorMessage env) s1
  | Some base64Image =>
      match atob env (base64Data base64Image) with
      | Api.Err message => handleSearch_catch message s1
      | Api.Ok byteCharacters =>
          let file := {| name := "captured.jpg"; type := "image/jpeg";
                         bytes := byteNumbers byteCharacters |} in
          let formData :=
            {| image := file;
               user_name := Api.orElse (Some (Form.user_name payload)) "Guest";
               privacy_agreed := Form.privacy_policy_agreed payload || true |} in
          with_analyzePending (S (analyzePending s1))
            (emit (AnalyzeFace formData) s1)
      end
  end.

(** ... and after it, lines 148-155, with [analyzeFace] of api.js around
    the request. *)
Definition handleSearch_settled (h : Api.Http AnalysisResult) (s : State)
  : State :=
  let '(msgs, r) := Api.analyzeFace h in
  let s1 := emitAll msgs s in
  match r with
  | Api.Ok response =>
      with_isLoading false
        (with_stage results_stage (with_results (Some response) s1))
  | Api.Err message => handleSearch_catch message s1
  end.

(** [handleNewSearch], lines 158-163. *)
Definition handleNewSearch (s : State) : State :=
  with_error None
    (with_results None (with_capturedImage None (with_stage capture s))).

(** Rendering, lines 281-329: the form is in the tree exactly in the
    'form' stage; it is created with its initial state when it enters. *)
Definition render (s : State) : State :=
  match stage s with
  | form_stage =>
      match form s with
      | Some _ => s
      | None => with_form (Some Form.initial) s
      end
  | _ => with_form None s
  end.

(** What the form's effects do in the shell: [alert], or [onSearch],
    which is [handleSearch] (line 303). *)
Definition runFormEffect (env : Env) (s : State) (e : Form.Effect) : State :=
  match e with
  | Form.Alert msg => emit (Alert msg) s
  | Form.OnSearch payload => handleSearch env payload s
  end.

Inductive Event :=
| HealthSettle (h : Api.Http unit)            (* GET /api/health settles *)
| Captured (base64Image : string)             (* the capture component calls onCapture *)
| SetPrivacy (checked : bool)                 (* the checkbox changes *)
| Submit (userName : string) (clock : Form.Clock)   (* the form is submitted *)
| AnalyzeSettle (h : Api.Http AnalysisResult) (* POST /api/v1/analyze-face settles *)
| NewSearch.                                  (* the New Search button *)

(** One event; an event that cannot be delivered (a component that is
    not in the tree, a disabled button, a request that is not pending)
    leaves the state as it is. *)
Definition step (env : Env) (s : State) (e : Event) : State :=
  match e with
  | HealthSettle h =>
      if healthPending s then checkBackend_settled h s else s
  | Captured base64Image =>
      match stage s with
      | capture => render (handleCapture base64Image s)
      | _ => s
      end
  | SetPrivacy checked =>
      match form s with
      | Some f => with_form (Some (Form.setPrivacyAgreed checked f)) s
      | None => s
      end
  | Submit userName clock =>
      match form s with
      | Some f =>
          if Form.submitDisabled (isLoading s) f then s
          else
            let '(f1, effects) :=
              Form.handleSubmit (capturedImage s) clock userName f in
            render (fold_left (runFormEffect env) effects
                              (with_form (Some f1) s))
      | None => s
      end
  | AnalyzeSettle h =>
      match analyzePending s with
      | S k => render (handleSearch_settled h (with_analyzePending k s))
      | O => s
      end
  | NewSearch =>
      match stage s with
      | results_stage => render (handleNewSearch s)
      | _ => s
      end
  end.

Definition run (env : Env) (s : State) (es : list Event) : State :=
  fold_left (step env) es s.

(** The [useState] initial values of lines 96-101. *)
Definition initial : State :=
  {| stage := capture; capturedImage := None; results := None;
     isLoading := false; error := None; backendOnline := false;
     form := None; healthPending := false; analyzePending := 0;
     log := [] |}.

(** The first render and the effect of lines 104-116. *)
Definition mount : State := checkBackend (render initial).

Definition isHealthCheck (e : Effect) : bool :=
  match e with HealthCheck => true | _ => false end.

(** The invariant of the shell. *)
Record Inv (s : State) : Prop := {
  inv_image : stage s <> capture -> capturedImage s <> None;
  inv_form : (exists f, form s = Some f) <-> stage s = form_stage;
  inv_one : analyzePending s <= 1;
  inv_loading : isLoading s = true <-> analyzePending s = 1;
  inv_pending : analyzePending s = 1 ->
                stage s = form_stage /\ error s = None;
  inv_results : stage s = results_stage ->
                error s = None /\ results s <> None;
  inv_capture : stage s = capture ->
                capturedImage s = None /\ results s = None /\
                error s = None;
  inv_requests :
    forall fd, In (AnalyzeFace fd) (log s) ->
               privacy_agreed fd = true /\
               2 <= Form.utf16_length (user_name fd);
  inv_health :
    List.length (filter isHealthCheck (log s)) = 1
}.

(** A sample environment and a sample run: an image is captured, the
    box is ticked and the form is submitted. *)
Definition sampleEnv : Env :=
  {| atob := fun text => Api.Ok text; typeErrorMessage := "null" |}.

(** An environment in which [atob] rejects every text. *)
Definition throwingEnv : Env :=
  {| atob := fun _ => Api.Err "The string to be decoded is not correctly encoded.";
     typeErrorMessage := "null" |}.

Definition sampleClock : Form.Clock :=
  {| Form.uuid := "0000-0000"; Form.now := "2024-01-01T00:00:00.000Z" |}.

Definition toSubmitted : list Event :=
  [Captured "data:image/jpeg;base64,AAAA"; SetPrivacy true;
   Submit "Ada" sampleClock].

Definition sampleResult : AnalysisResult :=
  {| success := true; result_error := None; dominant_emotion := "happy";
     emotion_confidence := 0.9%float;
     all_emotions := [("happy", 0.9%float); ("neutral", 0.1%float)];
     statement := "You look happy"; similar_images := [] |}.

End App.

(** * Properties *)

Close Scope string_scope.

(** ** Comparisons of binary64 values

    [<?] and [<=?] on primitive floats are specified by [SFltb] and
    [SFleb] on their unpacked form; a NaN compares false with everything. *)

Lemma SFcompare_antisym (x y : SpecFloat.spec_float) (c : comparison) :
  SpecFloat.SFcompare x y = Some c ->
  SpecFloat.SFcompare y x = Some (CompOpp c).
Proof.
  destruct x as [sx|sx| |sx mx ex], y as [sy|sy| |sy my ey];
    simpl; intros H; try discriminate;
    try (injection H as <-; destruct sx; try destruct sy; reflexivity).
  injection H as <-.
  destruct sx, sy; try reflexivity;
    rewrite (Z.compare_antisym ex ey);
    destruct (ex ?= ey)%Z eqn:E; simpl; try reflexivity;
    rewrite (Pos.compare_cont_antisym mx my Eq); simpl;
    try rewrite CompOpp_involutive; reflexivity.
Qed.

(** [x <= y] excludes [y < x]. *)
Lemma leb_not_gtb (x y : float) :
  (x <=? y)%float = true -> (y <? x)%float = false.
Proof.
  rewrite leb_spec, ltb_spec. unfold SpecFloat.SFleb, SpecFloat.SFltb.
  destruct (SpecFloat.SFcompare (Prim2SF x) (Prim2SF y)) as [c|] eqn:E;
    [|discriminate].
  rewrite (SFcompare_antisym _ _ _ E). destruct c; easy.
Qed.

(** Two values that are ordered neither way: one of them is a NaN, and
    every comparison with it is false. *)
Lemma unordered_ltb (x y z : float) :
  (x <=? y)%float = false -> (y <? x)%float = false ->
  Prim2SF y <> SpecFloat.S754_nan ->
  (x <? z)%float = false.
Proof.
  rewrite leb_spec, !ltb_spec. unfold SpecFloat.SFleb, SpecFloat.SFltb.
  intros H1 H2 Hy.
  destruct (SpecFloat.SFcompare (Prim2SF x) (Prim2SF y)) as [c|] eqn:E.
  - rewrite (SFcompare_antisym _ _ _ E) in H2. destruct c; discriminate.
  - destruct (Prim2SF x) as [sx|sx| |sx mx ex]; try reflexivity;
      destruct (Prim2SF y) as [sy|sy| |sy my ey]; simpl in E;
      try discriminate; congruence.
Qed.

(** ** C3: the quality classification *)

(** C3, as stated, fails: with the label of exactly 15 percent required to
    be "good positioning", the four boundary values cannot all hold. *)
Lemma quality_boundaries_as_stated_fail :
  ~ (qualityLabel 14.9 = MOVE_CLOSER /\
     qualityLabel 15.0 = GOOD_POSITIONING /\
     qualityLabel 79.9 = GOOD_POSITIONING /\
     qualityLabel 80.0 = MOVE_BACK).
Proof.
  intros (_ & H & _). vm_compute in H. discriminate H.
Qed.

(** C3, amended: the label is a function of [facePercentage] alone; it is
    "move closer" up to and including 15, "good positioning" strictly
    between 15 and 80, and "move back" from 80 on (and for a NaN).  In
    particular f(14.9) and f(15.0) are "move closer", f(79.9) is "good
    positioning" and f(80.0) is "move back".  The label stored for a
    detection is that function of [(faceArea / videoArea) * 100]. *)
Theorem quality_thresholds :
  qualityLabel 14.9 = MOVE_CLOSER /\
  qualityLabel 15.0 = MOVE_CLOSER /\
  qualityLabel 79.9 = GOOD_POSITIONING /\
  qualityLabel 80.0 = MOVE_BACK /\
  (forall p : float,
      qualityLabel p =
      if (p <=? 15)%float then MOVE_CLOSER
      else if (p <? 80)%float then GOOD_POSITIONING
      else MOVE_BACK) /\
  (forall canvas s d,
      faceQuality (forEach_body canvas s d) =
      if mounted s
      then qualityLabel
             ((width (box (detection d)) * height (box (detection d)))
              / (canvas_width canvas * canvas_height canvas) * 100)%float
      else faceQuality s).
Proof.
  repeat split; try (vm_compute; reflexivity).
  - intros p. unfold qualityLabel.
    destruct (p <=? 15)%float eqn:Hle.
    + rewrite (leb_not_gtb _ _ Hle). reflexivity.
    + destruct (15 <? p)%float eqn:Hgt; simpl.
      * reflexivity.
      * rewrite (unordered_ltb p 15 80 Hle Hgt); [reflexivity|].
        vm_compute. discriminate.
  - intros canvas s d. unfold forEach_body, setFaceQuality.
    destruct (mounted s); reflexivity.
Qed.

(** ** One completed poll in closed form *)

(** The traversal of lines 114-136 overwrites the label once per
    detection, so what is left is the label of the detection visited last. *)
Lemma forEach_last (canvas : Canvas) (ds : list Detection) (d : Detection)
      (s : State) :
  mounted s = true ->
  fold_left (forEach_body canvas) (ds ++ [d]) s =
  with_faceQuality
    (qualityLabel (facePercentage (box (detection d)) canvas)) s.
Proof.
  revert s. induction ds as [|a ds IH]; intros s Hm; simpl.
  - unfold forEach_body, setFaceQuality. now rewrite Hm.
  - rewrite IH.
    + unfold forEach_body at 1, setFaceQuality. now rewrite Hm.
    + unfold forEach_body, setFaceQuality. now rewrite Hm.
Qed.

Lemma forEach_unmounted (canvas : Canvas) (ds : list Detection) (s : State) :
  mounted s = false -> fold_left (forEach_body canvas) ds s = s.
Proof.
  intros Hm. induction ds as [|a ds IH]; simpl; [reflexivity|].
  unfold forEach_body at 2, setFaceQuality. now rewrite Hm.
Qed.

Lemma detectFaces_settled_polled (s : State) (video : Video) (c : Canvas)
      (ds : list Detection) :
  mounted s = true -> videoRef s = Some video -> displayCanvasRef s = Some c ->
  detectFaces_settled (Fulfilled ds) s = polled video ds s.
Proof.
  intros Hm Hv Hc. unfold detectFaces_settled, polled. rewrite Hv, Hc.
  destruct ds as [|d rest].
  - simpl. unfold setFaceDetected, setFacesCount. simpl.
    rewrite Hm. simpl. rewrite Hm. reflexivity.
  - assert (E : d :: rest = removelast (d :: rest) ++ [last rest d]).
    { replace (last rest d) with (last (d :: rest) d)
        by (destruct rest; reflexivity).
      apply app_removelast_last. discriminate. }
    assert (F : forall canvas s1, mounted s1 = true ->
                fold_left (forEach_body canvas) (d :: rest) s1 =
                with_faceQuality
                  (qualityLabel
                     (facePercentage (box (detection (last rest d))) canvas))
                  s1).
    { intros canvas s1 H1. rewrite E. now apply forEach_last. }
    change (0 <? List.length (d :: rest))%nat with true. cbv iota.
    rewrite F by (simpl; exact Hm).
    unfold setFaceDetected, setFacesCount. simpl.
    rewrite Hm. simpl. rewrite Hm. reflexivity.
Qed.

Lemma refsAttached_inv (s : State) :
  refsAttached s = true ->
  exists video c, videoRef s = Some video /\ displayCanvasRef s = Some c.
Proof.
  unfold refsAttached.
  destruct (videoRef s) as [v|], (displayCanvasRef s) as [c|];
    try discriminate; eauto.
Qed.

(** The same for the event that settles the detection call. *)
Lemma step_settle_polled (s : State) (video : Video) (ds : list Detection) :
  mounted s = true -> videoRef s = Some video -> refsAttached s = true ->
  detectionsPending s <> 0 ->
  step s (DetectionSettle (Fulfilled ds)) =
  polled video ds (with_detectionsPending (pred (detectionsPending s)) s).
Proof.
  intros Hm Hv Hr Hp.
  destruct (refsAttached_inv s Hr) as (video' & c & Hv' & Hc).
  unfold step. destruct (detectionsPending s) as [|k]; [congruence|].
  now apply (detectFaces_settled_polled _ video c ds).
Qed.

(** ** C1: capture needs a detected face, and calls [onCapture] once *)

Lemma handleCapture_no_face (env : CaptureEnv) (s : State) :
  faceDetected s = false ->
  handleCapture env s = emit (Alert NO_FACE_ALERT) s.
Proof. intros H. unfold handleCapture. now rewrite H. Qed.

(** Whatever happens, [handleCapture] touches nothing but the log. *)
Lemma handleCapture_only_logs (env : CaptureEnv) (s : State) :
  handleCapture env s = with_log (log (handleCapture env s)) s.
Proof.
  unfold handleCapture, capture_catch, emit.
  destruct (faceDetected s), (videoRef s), (encoded env),
    (onCapture_throws env); destruct s; reflexivity.
Qed.

(** C1.  Take a mounted component whose poll has just returned
    [detections], and call capture.
    - With no detection the capture stops at the "no face" alert and
      [onCapture] is not called.
    - With at least one detection and a frame that encodes to [img],
      [onCapture] is called exactly once, with [img].
    - On every path that is not a success (no face, no video element,
      drawing or encoding throws) [onCapture] is not called, from any
      state. *)
Theorem capture_calls_onCapture_once
        (s : State) (detections : list Detection) (env : CaptureEnv) :
  mounted s = true -> refsAttached s = true ->
  let s1 := detectFaces_settled (Fulfilled detections) s in
  let s2 := handleCapture env s1 in
  (detections = [] ->
     s2 = emit (Alert NO_FACE_ALERT) s1 /\
     onCaptureCalls (log s2) = onCaptureCalls (log s1)) /\
  (detections <> [] -> forall img, encoded env = Some img ->
     onCaptureCalls (log s2) = img :: onCaptureCalls (log s1)) /\
  (forall s0,
     faceDetected s0 = false \/ videoRef s0 = None \/ encoded env = None ->
     onCaptureCalls (log (handleCapture env s0)) = onCaptureCalls (log s0)).
Proof.
  intros Hm Hr.
  destruct (refsAttached_inv s Hr) as (video & c & Hv & Hc).
  rewrite (detectFaces_settled_polled s video c detections Hm Hv Hc).
  cbv zeta. repeat split.
  - subst detections. now apply handleCapture_no_face.
  - subst detections. now rewrite handleCapture_no_face.
  - intros Hne img Himg. destruct detections as [|d rest]; [congruence|].
    unfold handleCapture, capture_catch. simpl. rewrite Hv, Himg.
    destruct (onCapture_throws env); reflexivity.
  - intros s0 [H | [H | H]]; unfold handleCapture, capture_catch.
    + now rewrite H.
    + rewrite H. now destruct (faceDetected s0).
    + rewrite H. now destruct (faceDetected s0), (videoRef s0).
Qed.

(** The statement above at work on a sample execution. *)
Lemma capture_calls_onCapture_once_witness :
  mounted streaming = true /\ refsAttached streaming = true /\
  onCaptureCalls
    (log (handleCapture okCapture
            (detectFaces_settled (Fulfilled [goodFace]) streaming))) =
  ["data:image/jpeg;base64,AAAA"%string] /\
  onCaptureCalls
    (log (handleCapture okCapture
            (detectFaces_settled (Fulfilled []) streaming))) = [].
Proof.
  assert (Hm : mounted streaming = true) by reflexivity.
  assert (Hr : refsAttached streaming = true) by reflexivity.
  destruct (capture_calls_onCapture_once streaming [goodFace] okCapture Hm Hr)
    as (_ & B & _).
  destruct (capture_calls_onCapture_once streaming [] okCapture Hm Hr)
    as (A & _ & _).
  split; [exact Hm|]. split; [exact Hr|]. split.
  - exact (B ltac:(discriminate) _ eq_refl).
  - exact (proj2 (A eq_refl)).
Defined.

(** ** C6: a throwing detection call does not end the polling *)

(** C6.  When the detection call of a poll throws while timer [id] is
    running, the exception ends in the [catch] of that poll (one
    [console.error], no alert, no state change), the timer keeps running,
    and its next tick starts a new detection call. *)
Theorem detection_error_keeps_polling (s : State) (id : positive) :
  detectionsPending s <> 0 -> In id (timers s) -> refsAttached s = true ->
  let s1 := step s (DetectionSettle Rejected) in
  log s1 = ConsoleError "Detection error:" :: log s /\
  timers s1 = timers s /\
  detectionIntervalRef s1 = detectionIntervalRef s /\
  mounted s1 = mounted s /\
  (faceDetected s1, facesCount s1, faceQuality s1) =
  (faceDetected s, facesCount s, faceQuality s) /\
  log (step s1 (Tick id)) = DetectAllFaces :: log s1 /\
  detectionsPending (step s1 (Tick id)) = detectionsPending s.
Proof.
  intros Hp Hid Hr.
  destruct (refsAttached_inv s Hr) as (video & c & Hv & Hc).
  assert (Ht : existsb (Pos.eqb id) (timers s) = true).
  { apply existsb_exists. exists id. split; [exact Hid | apply Pos.eqb_refl]. }
  simpl. destruct (detectionsPending s) as [|k] eqn:Ek; [congruence|].
  simpl. rewrite Ht. unfold detectFaces. simpl. rewrite Hv, Hc. simpl.
  repeat split.
Qed.

(** The statement above at work on a sample execution. *)
Lemma detection_error_keeps_polling_witness :
  detectionsPending (run streaming [Tick 1]) <> 0 /\
  In 1%positive (timers (run streaming [Tick 1])) /\
  refsAttached (run streaming [Tick 1]) = true /\
  log (step (step (run streaming [Tick 1]) (DetectionSettle Rejected)) (Tick 1)) =
  DetectAllFaces
    :: log (step (run streaming [Tick 1]) (DetectionSettle Rejected)).
Proof.
  assert (H1 : detectionsPending (run streaming [Tick 1]) <> 0)
    by (vm_compute; discriminate).
  assert (H2 : In 1%positive (timers (run streaming [Tick 1])))
    by (vm_compute; auto).
  assert (H3 : refsAttached (run streaming [Tick 1]) = true) by reflexivity.
  destruct (detection_error_keeps_polling
              (run streaming [Tick 1]) 1%positive H1 H2 H3)
    as (_ & _ & _ & _ & _ & A & _).
  split; [exact H1|]. split; [exact H2|]. split; [exact H3 | exact A].
Defined.

(** ** C7: capture leaves the capture loop as it was *)

(** The log is written, never read: two states that differ in the log
    only still differ in the log only after a timer tick or a settled
    detection call. *)
Lemma poll_step_ignores_log (l : list Effect) (s : State) (e : Event) :
  (exists id, e = Tick id) \/ (exists r, e = DetectionSettle r) ->
  with_log [] (step (with_log l s) e) = with_log [] (step s e).
Proof.
  intros [[id ->] | [r ->]]; simpl.
  - destruct (existsb (Pos.eqb id) (timers s)); [|reflexivity].
    unfold detectFaces. simpl.
    destruct (videoRef s), (displayCanvasRef s); reflexivity.
  - destruct (detectionsPending s) as [|k]; [reflexivity|].
    destruct r as [ds|]; [|reflexivity].
    unfold detectFaces_settled. simpl.
    destruct (videoRef s) as [video|] eqn:Hv; [|reflexivity].
    destruct (displayCanvasRef s) as [c|] eqn:Hc; [|reflexivity].
    destruct (mounted s) eqn:Hm.
    + destruct ds as [|d rest].
      * unfold setFaceDetected, setFacesCount. simpl. rewrite Hm. simpl.
        rewrite Hm. reflexivity.
      * pose proof (detectFaces_settled_polled
                      (with_detectionsPending k (with_log l s)) video c
                      (d :: rest) Hm Hv Hc) as E1.
        pose proof (detectFaces_settled_polled
                      (with_detectionsPending k s) video c
                      (d :: rest) Hm Hv Hc) as E2.
        unfold detectFaces_settled in E1, E2. simpl in E1, E2.
        rewrite Hv, Hc in E1, E2. simpl. rewrite E1, E2. reflexivity.
    + destruct ((0 <? List.length ds)%nat);
        rewrite ?forEach_unmounted by exact Hm;
        unfold setFaceDetected, setFacesCount; simpl; rewrite ?Hm; simpl;
        rewrite ?Hm; reflexivity.
Qed.

(** C7.  A call of capture, successful or not, changes no field of the
    component but the log of outside calls: the detection state, the
    timer, the stream and the video element are as before; and the next
    timer tick and the next settled detection call lead to the same state
    (up to the log) as they would have without the capture. *)
Theorem capture_changes_no_state (env : CaptureEnv) (s : State) :
  let s1 := handleCapture env s in
  faceDetected s1 = faceDetected s /\
  facesCount s1 = facesCount s /\
  faceQuality s1 = faceQuality s /\
  timers s1 = timers s /\
  detectionIntervalRef s1 = detectionIntervalRef s /\
  streams s1 = streams s /\
  videoRef s1 = videoRef s /\
  isStreaming s1 = isStreaming s /\
  mounted s1 = mounted s /\
  detectionsPending s1 = detectionsPending s /\
  (forall id,
      with_log [] (step s1 (Tick id)) = with_log [] (step s (Tick id))) /\
  (forall r,
      with_log [] (step s1 (DetectionSettle r)) =
      with_log [] (step s (DetectionSettle r))).
Proof.
  cbv zeta. rewrite (handleCapture_only_logs env s).
  repeat split; intros; apply poll_step_ignores_log; eauto.
Qed.

(** ** C8: which face the feedback is for *)

(** C8, as stated, fails: a poll that returns a small face followed by a
    well placed one leaves "good positioning", which is not the label of
    the first face ("move closer"). *)
Lemma two_faces_label_is_not_first :
  let s := run streaming
               [Tick 1; DetectionSettle (Fulfilled [smallFace; goodFace])] in
  videoRef s = Some video640 /\
  facesCount s = 2 /\
  faceQuality s <> labelOf video640 smallFace.
Proof.
  vm_compute. repeat split. discriminate.
Qed.

(** C8, amended: the label left by a poll with one or more detections is
    the label of the last detection of the sequence. *)
Theorem quality_reflects_last_face
        (s : State) (video : Video) (ds : list Detection) (d : Detection) :
  mounted s = true -> videoRef s = Some video -> refsAttached s = true ->
  detectionsPending s <> 0 ->
  faceQuality (step s (DetectionSettle (Fulfilled (ds ++ [d])))) =
  labelOf video d.
Proof.
  intros Hm Hv Hr Hp.
  rewrite (step_settle_polled s video (ds ++ [d]) Hm Hv Hr Hp).
  unfold polled. destruct (ds ++ [d]) as [|a rest] eqn:E.
  - now destruct ds.
  - simpl. f_equal.
    replace (last rest a) with (last (a :: rest) a)
      by (destruct rest; reflexivity).
    rewrite <- E. apply last_last.
Qed.

(** The statement above at work on a sample execution. *)
Lemma quality_reflects_last_face_witness :
  mounted (run streaming [Tick 1]) = true /\
  videoRef (run streaming [Tick 1]) = Some video640 /\
  refsAttached (run streaming [Tick 1]) = true /\
  detectionsPending (run streaming [Tick 1]) <> 0 /\
  faceQuality
    (step (run streaming [Tick 1])
          (DetectionSettle (Fulfilled ([smallFace] ++ [goodFace])))) =
  labelOf video640 goodFace.
Proof.
  assert (H1 : mounted (run streaming [Tick 1]) = true) by reflexivity.
  assert (H2 : videoRef (run streaming [Tick 1]) = Some video640)
    by reflexivity.
  assert (H3 : refsAttached (run streaming [Tick 1]) = true) by reflexivity.
  assert (H4 : detectionsPending (run streaming [Tick 1]) <> 0)
    by (vm_compute; discriminate).
  split; [exact H1|]. split; [exact H2|]. split; [exact H3|].
  split; [exact H4|].
  exact (quality_reflects_last_face
           (run streaming [Tick 1]) video640 [smallFace] goodFace H1 H2 H3 H4).
Defined.

(** ** C9: what a poll recomputes *)

(** C9, as stated, fails: after a poll that saw a well placed face, a poll
    with an empty result leaves the count at 0 and the label at "good
    positioning"; the same empty poll on a fresh stream leaves the empty
    label.  The label after an empty poll is the old one. *)
Lemma empty_poll_keeps_old_label :
  let seen := run streaming [Tick 1; DetectionSettle (Fulfilled [goodFace])] in
  let s1 := run seen [Tick 1; DetectionSettle (Fulfilled [])] in
  let s2 := run streaming [Tick 1; DetectionSettle (Fulfilled [])] in
  facesCount s1 = 0 /\ faceDetected s1 = false /\
  faceQuality s1 = GOOD_POSITIONING /\
  facesCount s2 = 0 /\ faceDetected s2 = false /\
  faceQuality s2 = EmptyString.
Proof.
  vm_compute. repeat split.
Qed.

(** C9, amended: every completed poll recomputes the face count and the
    detected flag from its result; it recomputes the label only when the
    result is not empty, and on an empty result the label keeps the value
    it had. *)
Theorem poll_recomputes_count
        (s : State) (video : Video) (ds : list Detection) :
  mounted s = true -> videoRef s = Some video -> refsAttached s = true ->
  detectionsPending s <> 0 ->
  let s1 := step s (DetectionSettle (Fulfilled ds)) in
  facesCount s1 = List.length ds /\
  faceDetected s1 = (0 <? List.length ds)%nat /\
  faceQuality s1 =
  match ds with
  | [] => faceQuality s
  | d :: rest => labelOf video (last rest d)
  end.
Proof.
  intros Hm Hv Hr Hp. cbv zeta.
  rewrite (step_settle_polled s video ds Hm Hv Hr Hp).
  unfold polled. destruct ds; repeat split.
Qed.

(** The statement above at work on a sample execution. *)
Lemma poll_recomputes_count_witness :
  mounted (run streaming [Tick 1]) = true /\
  videoRef (run streaming [Tick 1]) = Some video640 /\
  refsAttached (run streaming [Tick 1]) = true /\
  detectionsPending (run streaming [Tick 1]) <> 0 /\
  facesCount
    (step (run streaming [Tick 1]) (DetectionSettle (Fulfilled []))) = 0 /\
  faceQuality
    (step (run streaming [Tick 1]) (DetectionSettle (Fulfilled []))) =
  faceQuality (run streaming [Tick 1]).
Proof.
  assert (H1 : mounted (run streaming [Tick 1]) = true) by reflexivity.
  assert (H2 : videoRef (run streaming [Tick 1]) = Some video640)
    by reflexivity.
  assert (H3 : refsAttached (run streaming [Tick 1]) = true) by reflexivity.
  assert (H4 : detectionsPending (run streaming [Tick 1]) <> 0)
    by (vm_compute; discriminate).
  destruct (poll_recomputes_count
              (run streaming [Tick 1]) video640 [] H1 H2 H3 H4)
    as (A & _ & B).
  split; [exact H1|]. split; [exact H2|]. split; [exact H3|].
  split; [exact H4|]. split; [exact A | exact B].
Defined.

(** ** The invariant is kept by every event *)

(** Reduction of a state given by its fields: unfold the component's
    functions and the field updates, and nothing of the libraries. *)
Ltac red_state :=
  lazy beta iota zeta delta
    [mounted faceDetected facesCount modelsLoaded isStreaming faceQuality
     videoRef displayCanvasRef detectionIntervalRef cameraCleanupSet
     detectionCleanupSet modelsPending cameraPending detectionsPending
     streams timers nextTimer log with_mounted with_faceDetected
     with_facesCount with_modelsLoaded with_isStreaming with_faceQuality
     with_videoRef with_displayCanvasRef with_detectionIntervalRef
     with_cameraCleanupSet with_detectionCleanupSet with_modelsPending
     with_cameraPending with_detectionsPending with_streams with_timers
     with_nextTimer with_log srcObject onloadedmetadata videoWidth
     videoHeight canvas_width canvas_height emit setFaceDetected
     setFacesCount setModelsLoaded setIsStreaming setFaceQuality loadModels
     loadModels_fulfilled loadModels_rejected startCamera cameraEffect
     startCamera_fulfilled startCamera_rejected onloadedmetadata_handler
     cameraCleanup detectFaces detectionEffect detectionCleanup
     capture_catch handleCapture teardown newVideo render commit detachRefs
     unmount setVideoSize awaitsMetadata step refsAttached polled encoded
     onCapture_throws negb andb orb Bool.eqb].

(** The same in a hypothesis, with the goal set aside meanwhile. *)
Ltac red_state_in H :=
  let g := fresh "g" in
  match goal with |- ?G => set (g := G) end;
  revert H; red_state; intro H; subst g.

(** Name the eighteen fields of a state. *)
Ltac fields s :=
  destruct s as [mo fd fc ml st fq vr dc di cc dcs mp cp dp ss ts nt lg].

Ltac fin_step :=
  match goal with
  | H : _ /\ _ |- _ => destruct H
  | H : _ \/ _ |- _ => destruct H
  | H : False |- _ => destruct H
  | H : ?a = ?a -> _ |- _ => specialize (H eq_refl)
  | H : ?a <> ?a |- _ => destruct (H eq_refl)
  | H : S ?k <> 0 -> _ |- _ => specialize (H (Nat.neq_succ_0 k))
  | H : forall id, ~ In (SetInterval id) ?l,
    H' : In (SetInterval ?i) ?l |- _ => destruct (H i H')
  | |- ~ _ => intro
  | |- _ /\ _ => split
  | |- forall _, _ => intro
  end.

Ltac fin :=
  intros; repeat (progress (repeat fin_step; subst; simpl in * ));
  try discriminate; try congruence; try lia; try tauto.

(** Open an invariant on a state given by its fields. *)
Ltac open_inv H :=
  destruct H as [H1 H2 H3 H4 H5 H6 H7 H8 H9];
  red_state_in H1; red_state_in H2; red_state_in H3; red_state_in H4;
  red_state_in H5; red_state_in H6; red_state_in H7; red_state_in H8;
  red_state_in H9.

Ltac close_inv := constructor; red_state; cbn [In]; fin.

Lemma Inv_mount : Inv mount.
Proof.
  constructor; vm_compute; intuition (try discriminate); repeat constructor.
Qed.

Lemma Inv_ModelsFulfil (s : State) : Inv s -> Inv (step s ModelsFulfil).
Proof.
  intros H. fields s.
  destruct mp; [|exact H].
  open_inv H. destruct (H3 eq_refl) as [-> Hna].
  destruct (H5 eq_refl) as (-> & Hg & Hca & -> & -> & ->).
  destruct mo, dc, dcs, di; close_inv.
Qed.


Lemma Inv_ModelsReject (s : State) : Inv s -> Inv (step s ModelsReject).
Proof.
  intros H. fields s.
  destruct mp; [|exact H].
  open_inv H. destruct (H3 eq_refl) as [-> Hna].
  destruct (H5 eq_refl) as (-> & Hg & Hca & -> & -> & ->).
  close_inv.
Qed.

Lemma Inv_CameraFulfil (s : State) (n : nat) :
  Inv s -> Inv (step s (CameraFulfil n)).
Proof.
  intros H. fields s.
  destruct cp as [|k]; [exact H|].
  open_inv H. assert (k = 0) by lia. subst k.
  destruct (H7 ltac:(discriminate)) as (Hca & Haw & ->).
  destruct ml; [|destruct (H5 eq_refl); discriminate].
  destruct vr as [[so h vw vh]|], mp; close_inv.
Qed.

Lemma Inv_CameraReject (s : State) : Inv s -> Inv (step s CameraReject).
Proof.
  intros H. fields s.
  destruct cp as [|k]; [exact H|].
  open_inv H. assert (k = 0) by lia. subst k.
  destruct (H7 ltac:(discriminate)) as (Hca & Haw & ->).
  destruct ml; [|destruct (H5 eq_refl); discriminate].
  destruct vr as [[[id|] [|] vw vh]|], mp; close_inv.
Qed.

Lemma Inv_LoadedMetadata (s : State) (w h : float) :
  Inv s -> Inv (step s (LoadedMetadata w h)).
Proof.
  intros H. fields s.
  destruct vr as [[[id|] [|] vw vh]|]; try exact H.
  open_inv H.
  destruct ml; [|destruct (H5 eq_refl) as (_ & _ & _ & _ & ? & _); discriminate].
  destruct mo, st, dc, dcs, di, cp; close_inv.
Qed.

Lemma Inv_Tick (s : State) (id : positive) : Inv s -> Inv (step s (Tick id)).
Proof.
  intros H. fields s.
  red_state. destruct (existsb (Pos.eqb id) ts) eqn:E; [|exact H].
  open_inv H. destruct vr, dc; close_inv.
Qed.

Lemma Inv_DetectionSettle (s : State) (r : Settled (list Detection)) :
  Inv s -> Inv (step s (DetectionSettle r)).
Proof.
  intros H. unfold step. destruct (detectionsPending s) as [|k] eqn:Ek; [exact H|].
  destruct r as [ds|].
  - destruct (mounted s) eqn:Hm.
    + assert (Hr : refsAttached s = true)
        by (apply (inv_refs s H Hm); rewrite Ek; discriminate).
      destruct (refsAttached_inv s Hr) as (video & c & Hv & Hc).
      rewrite (detectFaces_settled_polled (with_detectionsPending k s)
                 video c ds Hm Hv Hc).
      fields s.
      open_inv H. destruct ds; close_inv.
    + unfold detectFaces_settled.
      destruct (videoRef (with_detectionsPending k s)) eqn:Hv;
      destruct (displayCanvasRef (with_detectionsPending k s)) eqn:Hc.
      2-4: fields s;
           open_inv H; close_inv.
      rewrite forEach_unmounted by exact Hm.
      fields s.
      red_state_in Hm. subst mo.
      open_inv H. destruct ((0 <? List.length ds)%nat); close_inv.
  - fields s.
    open_inv H. unfold detectFaces_settled. close_inv.
Qed.

Lemma Inv_Click (s : State) (env : CaptureEnv) : Inv s -> Inv (step s (Click env)).
Proof.
  intros H. fields s.
  destruct mo; [|exact H]. destruct env as [[img|] [|]].
  all: open_inv H; destruct fd, vr; close_inv.
Qed.

Lemma Inv_Unmount (s : State) (b : bool) : Inv s -> Inv (step s (Unmount b)).
Proof.
  intros H. fields s.
  destruct mo; [|exact H].
  open_inv H. destruct b, cc, vr as [[[id|] [|] vw vh]|], dcs, di; close_inv.
Qed.

Lemma Inv_step (s : State) (e : Event) : Inv s -> Inv (step s e).
Proof.
  destruct e.
  - apply Inv_ModelsFulfil.
  - apply Inv_ModelsReject.
  - apply Inv_CameraFulfil.
  - apply Inv_CameraReject.
  - apply Inv_LoadedMetadata.
  - apply Inv_Tick.
  - apply Inv_DetectionSettle.
  - apply Inv_Click.
  - apply Inv_Unmount.
Qed.

Lemma Inv_run (es : list Event) (s : State) : Inv s -> Inv (run s es).
Proof.
  revert s. induction es as [|e es IH]; intros s H; simpl.
  - exact H.
  - apply IH, Inv_step, H.
Qed.

Lemma Inv_reachable (es : list Event) : Inv (run mount es).
Proof. apply Inv_run, Inv_mount. Qed.

Lemma run_app (s : State) (es1 es2 : list Event) :
  run s (es1 ++ es2) = run (run s es1) es2.
Proof. apply fold_left_app. Qed.

(** ** The log only grows *)

Lemma log_forEach (canvas : Canvas) (ds : list Detection) (s : State) :
  log (fold_left (forEach_body canvas) ds s) = log s.
Proof.
  revert s. induction ds as [|d ds IH]; intros s; simpl; [reflexivity|].
  rewrite IH. unfold forEach_body, setFaceQuality.
  destruct (mounted s); reflexivity.
Qed.

Lemma log_detectFaces_settled (ds : list Detection) (s : State) :
  log (detectFaces_settled (Fulfilled ds) s) = log s.
Proof.
  unfold detectFaces_settled.
  destruct (videoRef s), (displayCanvasRef s); try reflexivity.
  unfold setFaceDetected, setFacesCount.
  repeat match goal with
         | |- context [if ?b then _ else _] => destruct b
         end; simpl; rewrite ?log_forEach; reflexivity.
Qed.

Lemma log_kept (s : State) (e : Event) (x : Effect) :
  In x (log s) -> In x (log (step s e)).
Proof.
  destruct e as [ | |n| |w h|id|r|env|b].
  - fields s.
    destruct mp, mo, ml, st, cc, dcs, di, vr as [[[i|] [|] vw vh]|];
      red_state; cbn [In]; tauto.
  - fields s.
    destruct mp; red_state; cbn [In]; tauto.
  - fields s.
    destruct cp, vr; red_state; cbn [In]; tauto.
  - fields s.
    destruct cp; red_state; cbn [In]; tauto.
  - fields s.
    destruct vr as [[[i|] [|] vw vh]|], mo, ml, st, cc, dcs, di;
      red_state; cbn [In]; tauto.
  - fields s.
    red_state. destruct (existsb (Pos.eqb id) ts), vr, dc;
      red_state; cbn [In]; tauto.
  - unfold step. destruct (detectionsPending s) as [|k]; [tauto|].
    destruct r as [ds|].
    + rewrite log_detectFaces_settled. tauto.
    + simpl. tauto.
  - fields s.
    destruct env as [[img|] [|]], mo, fd, vr; red_state; cbn [In]; tauto.
  - fields s.
    destruct b, mo, cc, dcs, di, vr as [[[i|] [|] vw vh]|];
      red_state; cbn [In]; tauto.
Qed.

Lemma log_kept_run (es : list Event) (s : State) (x : Effect) :
  In x (log s) -> In x (log (run s es)).
Proof.
  revert s. induction es as [|e es IH]; intros s H; simpl.
  - exact H.
  - apply IH, log_kept, H.
Qed.

(** ** C2: the detected flag after a poll *)

(** C2.  In every execution, when a detection call of the mounted
    component returns [detections], the poll leaves [faceDetected] false
    if the sequence is empty and true if it holds one or more records. *)
Theorem poll_sets_faceDetected (es : list Event) (detections : list Detection) :
  mounted (run mount es) = true ->
  detectionsPending (run mount es) <> 0 ->
  faceDetected (step (run mount es) (DetectionSettle (Fulfilled detections))) =
  match detections with
  | [] => false
  | _ :: _ => true
  end.
Proof.
  intros Hm Hp.
  pose proof (inv_refs _ (Inv_reachable es) Hm Hp) as Hr.
  destruct (refsAttached_inv _ Hr) as (video & c & Hv & Hc).
  rewrite (step_settle_polled _ video detections Hm Hv Hr Hp).
  reflexivity.
Qed.

(** The statement above at work on a sample execution. *)
Lemma poll_sets_faceDetected_witness :
  mounted (run mount (toStreaming ++ [Tick 1])) = true /\
  detectionsPending (run mount (toStreaming ++ [Tick 1])) <> 0 /\
  faceDetected (step (run mount (toStreaming ++ [Tick 1]))
                     (DetectionSettle (Fulfilled [goodFace]))) = true /\
  faceDetected (step (run mount (toStreaming ++ [Tick 1]))
                     (DetectionSettle (Fulfilled []))) = false.
Proof.
  assert (Hm : mounted (run mount (toStreaming ++ [Tick 1])) = true)
    by reflexivity.
  assert (Hp : detectionsPending (run mount (toStreaming ++ [Tick 1])) <> 0)
    by (vm_compute; discriminate).
  split; [exact Hm|]. split; [exact Hp|]. split.
  - exact (poll_sets_faceDetected (toStreaming ++ [Tick 1]) [goodFace] Hm Hp).
  - exact (poll_sets_faceDetected (toStreaming ++ [Tick 1]) [] Hm Hp).
Defined.

(** ** C5: a failed setup never reaches streaming *)

(** C5.  In every execution in which loading the models fails, the alert
    is raised, [modelsLoaded] stays false for good and [getUserMedia] is
    never called, before or after.  In every execution in which the
    camera is refused, the alert is raised, [isStreaming] stays false for
    good and no interval timer is ever started. *)
Theorem setup_failure_blocks_streaming (es1 es2 es3 es4 : list Event) :
  (modelsPending (run mount es1) = true ->
   let s := run mount (es1 ++ ModelsReject :: es2) in
   In (Alert MODELS_ALERT) (log s) /\
   ~ In GetUserMedia (log s) /\
   modelsLoaded s = false /\ isStreaming s = false /\ timers s = []) /\
  (cameraPending (run mount es3) <> 0 ->
   let s := run mount (es3 ++ CameraReject :: es4) in
   In (Alert CAMERA_ALERT) (log s) /\
   (forall id, ~ In (SetInterval id) (log s)) /\
   timers s = [] /\ isStreaming s = false /\ cameraPending s = 0).
Proof.
  split; intros Hp s.
  - assert (Ha : In (Alert MODELS_ALERT) (log s)).
    { unfold s. rewrite run_app. simpl. apply log_kept_run.
      unfold step. rewrite Hp. simpl. auto. }
    pose proof (Inv_reachable (es1 ++ ModelsReject :: es2)) as I.
    fold s in I.
    pose proof (inv_models_failed s I Ha) as Hl.
    destruct (inv_loading s I Hl) as (_ & Hg & _ & Hs & _).
    destruct (inv_idle s I Hs) as (Ht & _).
    repeat split; assumption.
  - assert (Ha : In (Alert CAMERA_ALERT) (log s)).
    { unfold s. rewrite run_app. simpl. apply log_kept_run.
      unfold step. destruct (cameraPending (run mount es3)); [congruence|].
      simpl. auto. }
    pose proof (Inv_reachable (es3 ++ CameraReject :: es4)) as I.
    fold s in I.
    destruct (inv_camera_failed s I Ha) as (Hs & Hc & _).
    destruct (inv_idle s I Hs) as (Ht & Hsi).
    repeat split; assumption.
Qed.

(** The statement above at work on a sample execution. *)
Lemma setup_failure_blocks_streaming_witness :
  modelsPending (run mount []) = true /\
  cameraPending (run mount [ModelsFulfil]) <> 0 /\
  ~ In GetUserMedia
      (log (run mount ([] ++ ModelsReject ::
                       [ModelsFulfil; CameraFulfil 1; LoadedMetadata 640 480]))) /\
  timers (run mount ([ModelsFulfil] ++ CameraReject ::
                     [CameraFulfil 1; LoadedMetadata 640 480; Tick 1])) = [].
Proof.
  assert (H1 : modelsPending (run mount []) = true) by reflexivity.
  assert (H2 : cameraPending (run mount [ModelsFulfil]) <> 0)
    by (vm_compute; discriminate).
  destruct (setup_failure_blocks_streaming
              [] [ModelsFulfil; CameraFulfil 1; LoadedMetadata 640 480]
              [ModelsFulfil] [CameraFulfil 1; LoadedMetadata 640 480; Tick 1])
    as [A B].
  destruct (A H1) as (_ & Hg & _).
  destruct (B H2) as (_ & _ & Ht & _).
  split; [exact H1|]. split; [exact H2|]. split; [exact Hg | exact Ht].
Defined.

(** ** C10: polls in flight at the same time *)

(** C10, as stated, fails: with one detection call still pending, the next
    tick of the timer is neither skipped nor merged; it starts a second
    detection call, and two polls are in flight. *)
Lemma second_tick_starts_overlapping_poll :
  let s1 := run streaming [Tick 1] in
  let s2 := step s1 (Tick 1) in
  detectionsPending s1 = 1 /\
  detectionsPending s2 = 2 /\
  log s2 = DetectAllFaces :: log s1.
Proof.
  vm_compute. repeat split.
Qed.

(** No event but a returning detection call touches the detection state. *)
Lemma detection_state_frame (s : State) (e : Event) :
  isFulfilledSettle e = false ->
  (faceDetected (step s e), facesCount (step s e), faceQuality (step s e)) =
  (faceDetected s, facesCount s, faceQuality s).
Proof.
  intros He. fields s. destruct e as [ | |n| |w h|id|r|env|b].
  - destruct mp, mo, ml, st, cc, dcs, di, vr as [[[i|] [|] vw vh]|];
      red_state; reflexivity.
  - destruct mp; red_state; reflexivity.
  - destruct cp, vr; red_state; reflexivity.
  - destruct cp; red_state; reflexivity.
  - destruct vr as [[[i|] [|] vw vh]|], mo, ml, st, cc, dcs, di;
      red_state; reflexivity.
  - red_state. destruct (existsb (Pos.eqb id) ts), vr, dc;
      red_state; reflexivity.
  - destruct r as [ds|]; [discriminate He|].
    destruct dp; red_state; reflexivity.
  - destruct env as [[img|] [|]], mo, fd, vr; red_state; reflexivity.
  - destruct b, mo, cc, dcs, di, vr as [[[i|] [|] vw vh]|];
      red_state; reflexivity.
Qed.

Lemma detection_state_frame_run (es : list Event) (s : State) :
  existsb isFulfilledSettle es = false ->
  (faceDetected (run s es), facesCount (run s es), faceQuality (run s es)) =
  (faceDetected s, facesCount s, faceQuality s).
Proof.
  revert s. induction es as [|e es IH]; intros s H; simpl; [reflexivity|].
  simpl in H. apply orb_false_iff in H. destruct H as [He Hes].
  rewrite (IH _ Hes). now apply detection_state_frame.
Qed.

(** C10, amended: polls may overlap, as every tick of a running timer
    starts a new detection call whatever the number of calls still
    pending.  Each poll writes [facesCount], [faceDetected] and the label
    in the one step in which its own call returns: in every execution,
    once a call of the mounted component has returned [detections], and
    until the next call returns, [facesCount] is the length of
    [detections], [faceDetected] tells whether it is positive and the
    label is the one that result leaves, however many other polls are in
    flight and whatever else happens meanwhile; before any call has
    returned the three have their initial values.  So in every reachable
    state [faceDetected] is [facesCount > 0], and the two are never taken
    from two different polls. *)
Theorem polls_overlap_updates_are_atomic :
  (forall s id,
      In id (timers s) -> refsAttached s = true ->
      detectionsPending (step s (Tick id)) = S (detectionsPending s) /\
      log (step s (Tick id)) = DetectAllFaces :: log s) /\
  (forall es,
      faceDetected (run mount es) = (0 <? facesCount (run mount es))%nat) /\
  (forall es detections es' video,
      mounted (run mount es) = true ->
      detectionsPending (run mount es) <> 0 ->
      videoRef (run mount es) = Some video ->
      existsb isFulfilledSettle es' = false ->
      let s' :=
        run (step (run mount es) (DetectionSettle (Fulfilled detections)))
            es' in
      facesCount s' = List.length detections /\
      faceDetected s' = (0 <? List.length detections)%nat /\
      faceQuality s' =
      match detections with
      | [] => faceQuality (run mount es)
      | d :: rest => labelOf video (last rest d)
      end) /\
  (forall es,
      existsb isFulfilledSettle es = false ->
      (faceDetected (run mount es), facesCount (run mount es),
       faceQuality (run mount es)) = (false, 0, EmptyString)).
Proof.
  split; [|split; [|split]].
  - intros s id Hid Hr.
    destruct (refsAttached_inv s Hr) as (video & c & Hv & Hc).
    assert (Ht : existsb (Pos.eqb id) (timers s) = true).
    { apply existsb_exists. exists id. split; [exact Hid | apply Pos.eqb_refl]. }
    unfold step, detectFaces. rewrite Ht, Hv, Hc. split; reflexivity.
  - intros es. apply inv_flag, Inv_reachable.
  - intros es detections es' video Hm Hp Hv Hes. cbv zeta.
    pose proof (inv_refs _ (Inv_reachable es) Hm Hp) as Hr.
    pose proof (step_settle_polled _ video detections Hm Hv Hr Hp) as E.
    remember (step (run mount es) (DetectionSettle (Fulfilled detections)))
      as t eqn:Et.
    pose proof (detection_state_frame_run es' t Hes) as F.
    injection F as F1 F2 F3. rewrite F1, F2, F3, E.
    unfold polled. destruct detections; repeat split.
  - intros es Hes. now rewrite detection_state_frame_run.
Qed.

(** The statement above at work on a sample execution: two polls are in
    flight, the first returns two faces, the second returns one. *)
Lemma polls_overlap_updates_are_atomic_witness :
  In 1%positive (timers (run streaming [Tick 1])) /\
  refsAttached (run streaming [Tick 1]) = true /\
  detectionsPending (step (run streaming [Tick 1]) (Tick 1)) =
  S (detectionsPending (run streaming [Tick 1])) /\
  mounted (run mount (toStreaming ++
             [Tick 1; Tick 1;
              DetectionSettle (Fulfilled [goodFace; goodFace])])) = true /\
  detectionsPending (run mount (toStreaming ++
             [Tick 1; Tick 1;
              DetectionSettle (Fulfilled [goodFace; goodFace])])) <> 0 /\
  facesCount
    (run (step (run mount (toStreaming ++
                  [Tick 1; Tick 1;
                   DetectionSettle (Fulfilled [goodFace; goodFace])]))
               (DetectionSettle (Fulfilled [smallFace])))
         [Tick 1; DetectionSettle Rejected; Click okCapture]) = 1 /\
  faceQuality
    (run (step (run mount (toStreaming ++
                  [Tick 1; Tick 1;
                   DetectionSettle (Fulfilled [goodFace; goodFace])]))
               (DetectionSettle (Fulfilled [smallFace])))
         [Tick 1; DetectionSettle Rejected; Click okCapture]) =
  labelOf video640 smallFace.
Proof.
  assert (H1 : In 1%positive (timers (run streaming [Tick 1])))
    by (vm_compute; auto).
  assert (H2 : refsAttached (run streaming [Tick 1]) = true) by reflexivity.
  assert (H3 : mounted (run mount (toStreaming ++
             [Tick 1; Tick 1;
              DetectionSettle (Fulfilled [goodFace; goodFace])])) = true)
    by reflexivity.
  assert (H4 : detectionsPending (run mount (toStreaming ++
             [Tick 1; Tick 1;
              DetectionSettle (Fulfilled [goodFace; goodFace])])) <> 0)
    by (vm_compute; discriminate).
  assert (H5 : videoRef (run mount (toStreaming ++
             [Tick 1; Tick 1;
              DetectionSettle (Fulfilled [goodFace; goodFace])]))
               = Some video640) by reflexivity.
  assert (H6 : existsb isFulfilledSettle
                 [Tick 1; DetectionSettle Rejected; Click okCapture] = false)
    by reflexivity.
  destruct polls_overlap_updates_are_atomic as (A & _ & C & _).
  destruct (A (run streaming [Tick 1]) 1%positive H1 H2) as [B _].
  destruct (C _ [smallFace] _ video640 H3 H4 H5 H6) as (C1 & _ & C3).
  split; [exact H1|]. split; [exact H2|]. split; [exact B|].
  split; [exact H3|]. split; [exact H4|]. split; [exact C1 | exact C3].
Defined.

(** ** C4: teardown *)

Lemma stopTracks_idempotent (id : nat) (ss : list MediaStream) :
  stopTracks id (stopTracks id ss) = stopTracks id ss.
Proof.
  revert id. induction ss as [|stream rest IH]; intros [|id]; simpl;
    try reflexivity.
  - now rewrite map_map.
  - now rewrite IH.
Qed.

(** What does hold: running both cleanup functions twice is the same as
    running them once. *)
Lemma teardown_idempotent (s : State) : teardown (teardown s) = teardown s.
Proof.
  fields s.
  destruct vr as [[[id|] h vw vh]|], di as [t|], mo; red_state;
    rewrite ?stopTracks_idempotent, ?remove_remove_eq; reflexivity.
Qed.

(** What does hold: with the video element attached and showing stream
    [id], the cleanup ends every track of that stream and stops the timer
    stored in [detectionIntervalRef]. *)
Lemma teardown_releases (s : State) (video : Video) (id : nat)
      (stream : MediaStream) (t : positive) :
  videoRef s = Some video -> srcObject video = Some id ->
  nth_error (streams s) id = Some stream ->
  detectionIntervalRef s = Some t ->
  existsb isLive (nth id (streams (teardown s)) []) = false /\
  ~ In t (timers (teardown s)).
Proof.
  intros Hv Hs Hn Ht. unfold teardown, detectionCleanup, cameraCleanup.
  rewrite Hv, Hs. unfold setIsStreaming.
  assert (E : forall ss i st, nth_error ss i = Some st ->
                existsb isLive (nth i (stopTracks i ss) []) = false).
  { induction ss as [|a ss IH]; intros [|i] st0 H; simpl in *;
      try discriminate.
    - clear. induction a; simpl; auto.
    - eapply IH; eauto. }
  destruct (mounted _); simpl; rewrite Ht; simpl; split;
    try (eapply E; eauto); apply remove_In.
Qed.

(** The order in which React clears the refs decides whether the cleanup
    of lines 70-75 sees the stream at all: run after the refs are cleared
    it reads [videoRef.current] as null and stops nothing. *)
Lemma teardown_depends_on_ref_order :
  cameraOn (run streaming [Unmount false]) = false /\
  cameraOn (run streaming [Unmount true]) = true /\
  timers (run streaming [Unmount false]) = [] /\
  timers (run streaming [Unmount true]) = [].
Proof. vm_compute. repeat split. Qed.

(** Once the component is unmounted and no camera request is pending, no
    event stops a track or adds a stream. *)
Lemma unmounted_step (s : State) (e : Event) :
  mounted s = false -> cameraPending s = 0 ->
  mounted (step s e) = false /\ cameraPending (step s e) = 0 /\
  streams (step s e) = streams s.
Proof.
  intros Hm Hc. destruct e as [ | |n| |w h|id|r|env|b].
  1-6, 8-9:
    fields s;
    red_state_in Hm; red_state_in Hc; subst mo cp.
  - destruct mp; red_state; auto.
  - destruct mp; red_state; auto.
  - red_state; auto.
  - red_state; auto.
  - destruct vr as [[[i|] [|] vw vh]|]; red_state; auto.
  - red_state. destruct (existsb (Pos.eqb id) ts), vr, dc; red_state; auto.
  - destruct env as [[img|] [|]]; red_state; auto.
  - red_state; auto.
  - unfold step. destruct (detectionsPending s) as [|k]; [auto|].
    destruct r as [ds|]; [|simpl; auto].
    unfold detectFaces_settled.
    destruct (videoRef (with_detectionsPending k s)),
             (displayCanvasRef (with_detectionsPending k s)); simpl; auto.
    rewrite forEach_unmounted by exact Hm.
    unfold setFaceDetected, setFacesCount.
    destruct ((0 <? List.length ds)%nat); simpl; rewrite Hm; simpl;
      rewrite Hm; simpl; auto.
Qed.

Lemma unmounted_run (es : list Event) (s : State) :
  mounted s = false -> cameraPending s = 0 ->
  streams (run s es) = streams s.
Proof.
  revert s. induction es as [|e es IH]; intros s Hm Hc; simpl;
    [reflexivity|].
  destruct (unmounted_step s e Hm Hc) as (Hm' & Hc' & Hs).
  rewrite IH by assumption. exact Hs.
Qed.

(** C4 does not hold on the code.  Stop the component while the camera
    request is still pending (the models are loaded, [getUserMedia] has
    not answered): the cleanup finds no stream to stop.  The stream that
    is granted afterwards is created with live tracks, and nothing that
    happens later ever stops them, whichever way React orders the cleanup
    and the clearing of the refs. *)
Theorem stop_while_camera_starting_leaks
        (refsCleared : bool) (n : nat) (es : list Event) :
  let stopped := run mount [ModelsFulfil; Unmount refsCleared] in
  let s := run stopped (CameraFulfil (S n) :: es) in
  mounted stopped = false /\
  cameraPending stopped = 1 /\
  streams stopped = [] /\
  streams s = [repeat live (S n)] /\
  cameraOn s = true.
Proof.
  cbv zeta.
  assert (E : streams (run (run mount [ModelsFulfil; Unmount refsCleared])
                           (CameraFulfil (S n) :: es))
              = [repeat live (S n)]).
  { change (run ?s (?e :: ?l)) with (run (step s e) l).
    rewrite unmounted_run; destruct refsCleared; reflexivity. }
  unfold cameraOn. rewrite E.
  destruct refsCleared; repeat split.
Qed.

(** * More of the capture loop *)

Ltac open_res R :=
  destruct R as [R1 R2 R3 R4 R5 R6 R7];
  red_state_in R1; red_state_in R2; red_state_in R3; red_state_in R4;
  red_state_in R5; red_state_in R6; red_state_in R7.

Ltac more_step :=
  match goal with
  | H : exists _, _ |- _ => destruct H
  | H : [_] = [_] |- _ => injection H as H
  | H : Some _ = Some _ |- _ => injection H as H
  | H : _ :: _ = [] |- _ => discriminate H
  | H : [] = _ :: _ |- _ => discriminate H
  | H : forall v, Some ?x = Some v -> _ |- _ => specialize (H x eq_refl)
  | |- context [Pos.eq_dec ?a ?a] =>
      destruct (Pos.eq_dec a a); [|congruence]
  | H : context [match ?l with [] => _ | _ :: _ => _ end] |- _ =>
      is_var l; destruct l
  | |- context [match ?l with [] => _ | _ :: _ => _ end] =>
      is_var l; destruct l
  end.

Ltac fin_more :=
  unfold calls in *; fin;
  repeat (more_step; fin);
  try solve [ eauto 8
            | left; reflexivity
            | right; repeat split; eauto
            | eexists; split; reflexivity
            | repeat split; eauto ].

Ltac close_res := constructor; red_state; fin_more.

Lemma forallb_isLive_repeat (n : nat) : forallb isLive (repeat live n) = true.
Proof. induction n; simpl; auto. Qed.

Lemma Resources_mount : Resources mount.
Proof.
  constructor; vm_compute; intuition (try discriminate); repeat constructor.
Qed.

Lemma Resources_ModelsFulfil (s : State) :
  Inv s -> Resources s -> Resources (step s ModelsFulfil).
Proof.
  intros H R. fields s. destruct mp; [|exact R].
  open_inv H. open_res R. destruct (H3 eq_refl) as [-> Hna].
  destruct (H5 eq_refl) as (-> & Hg & Hca & -> & -> & ->).
  destruct mo, dc, dcs, di; close_res.

Qed.

Lemma Resources_ModelsReject (s : State) :
  Inv s -> Resources s -> Resources (step s ModelsReject).
Proof.
  intros H R. fields s. destruct mp; [|exact R].
  open_inv H. open_res R. destruct (H3 eq_refl) as [-> Hna].
  destruct (H5 eq_refl) as (-> & Hg & Hca & -> & -> & ->).
  close_res.

Qed.

Lemma Resources_CameraFulfil (s : State) (n : nat) :
  Inv s -> Resources s -> Resources (step s (CameraFulfil n)).
Proof.
  intros H R. fields s. destruct cp as [|k]; [exact R|].
  open_inv H. open_res R. assert (k = 0) by lia. subst k.
  destruct (H7 ltac:(discriminate)) as (Hca & Haw & ->).
  destruct ml; [|destruct (H5 eq_refl); discriminate].
  pose proof (forallb_isLive_repeat n) as Hlive.
  destruct vr as [[so h vw vh]|], mo; close_res.

Qed.

Lemma Resources_CameraReject (s : State) :
  Inv s -> Resources s -> Resources (step s CameraReject).
Proof.
  intros H R. fields s. destruct cp as [|k]; [exact R|].
  open_inv H. open_res R. assert (k = 0) by lia. subst k.
  destruct (H7 ltac:(discriminate)) as (Hca & Haw & ->).
  destruct ml; [|destruct (H5 eq_refl); discriminate].
  destruct vr as [[[id|] [|] vw vh]|], mo; close_res.

Qed.

Lemma Resources_LoadedMetadata (s : State) (w h : float) :
  Inv s -> Resources s -> Resources (step s (LoadedMetadata w h)).
Proof.
  intros H R. fields s.
  destruct vr as [[[id|] [|] vw vh]|]; try exact R.
  open_inv H. open_res R.
  destruct ml; [|destruct (H5 eq_refl) as (_ & _ & _ & _ & ? & _); discriminate].
  destruct mo, st, dc, dcs, di, cp; close_res.

Qed.

Lemma Resources_Tick (s : State) (id : positive) :
  Inv s -> Resources s -> Resources (step s (Tick id)).
Proof.
  intros H R. fields s.
  red_state. destruct (existsb (Pos.eqb id) ts) eqn:E; [|exact R].
  open_inv H. open_res R. destruct vr, dc; close_res.

Qed.

Lemma Resources_DetectionSettle (s : State) (r : Settled (list Detection)) :
  Inv s -> Resources s -> Resources (step s (DetectionSettle r)).
Proof.
  intros H R. unfold step.
  destruct (detectionsPending s) as [|k] eqn:Ek; [exact R|].
  destruct r as [ds|].
  - destruct (mounted s) eqn:Hm.
    + assert (Hr : refsAttached s = true)
        by (apply (inv_refs s H Hm); rewrite Ek; discriminate).
      destruct (refsAttached_inv s Hr) as (video & c & Hv & Hc).
      rewrite (detectFaces_settled_polled (with_detectionsPending k s)
                 video c ds Hm Hv Hc).
      fields s. open_inv H. open_res R. destruct ds; close_res.
    + unfold detectFaces_settled.
      destruct (videoRef (with_detectionsPending k s)) eqn:Hv;
      destruct (displayCanvasRef (with_detectionsPending k s)) eqn:Hc.
      2-4: fields s; open_inv H; open_res R; close_res.
      rewrite forEach_unmounted by exact Hm.
      fields s. red_state_in Hm. subst mo.
      open_inv H. open_res R. destruct ((0 <? List.length ds)%nat); close_res.
  - fields s. open_inv H. open_res R. unfold detectFaces_settled. close_res.

Qed.

Lemma Resources_Click (s : State) (env : CaptureEnv) :
  Inv s -> Resources s -> Resources (step s (Click env)).
Proof.
  intros H R. fields s.
  destruct mo; [|exact R]. destruct env as [[img|] [|]].
  all: open_inv H; open_res R; destruct fd, vr; close_res.

Qed.

Lemma Resources_Unmount (s : State) (b : bool) :
  Inv s -> Resources s -> Resources (step s (Unmount b)).
Proof.
  intros H R. fields s. destruct mo; [|exact R].
  open_inv H. open_res R. destruct ml.
  - destruct (R6 eq_refl eq_refl) as [Hr ->].
    destruct vr as [[[id|] hd vw vh]|]; [| |discriminate Hr];
      (destruct dc; [|discriminate Hr]);
      destruct b, dcs, di; close_res.
  - destruct (H5 eq_refl) as (-> & _ & _ & -> & -> & ->).
    destruct b, dcs, di; close_res.

Qed.

Lemma qualityLabel_isQualityLabel (p : float) : isQualityLabel (qualityLabel p).
Proof.
  unfold isQualityLabel, qualityLabel.
  destruct ((15 <? p)%float && (p <? 80)%float); [auto|].
  destruct (p <=? 15)%float; auto.
Qed.

Lemma labelOf_isQualityLabel (video : Video) (d : Detection) :
  isQualityLabel (labelOf video d).
Proof. apply qualityLabel_isQualityLabel. Qed.

Ltac open_cau C :=
  destruct C as [C1 C2 C3 C4 C5 C6];
  red_state_in C1; red_state_in C2; red_state_in C3; red_state_in C4;
  red_state_in C5; red_state_in C6.

Lemma Causality_mount : Causality mount.
Proof.
  constructor; vm_compute; intuition (try discriminate).
Qed.

Ltac close_cau := constructor; red_state; fin_more.

Lemma Causality_ModelsFulfil (s : State) :
  Inv s -> Causality s -> Causality (step s ModelsFulfil).
Proof.
  intros H C. fields s. destruct mp; [|exact C].
  open_inv H. open_cau C. destruct (H3 eq_refl) as [-> Hna].
  destruct (H5 eq_refl) as (-> & Hg & Hca & -> & -> & ->).
  clear H1 H2 H3 H4 H5 H6 H7 H8 H9 Hna Hg Hca.
  destruct mo, dc, dcs, di; close_cau.
Qed.

Lemma Causality_ModelsReject (s : State) :
  Causality s -> Causality (step s ModelsReject).
Proof.
  intros C. fields s. destruct mp; [|exact C].
  open_cau C. close_cau.
Qed.

Lemma Causality_CameraFulfil (s : State) (n : nat) :
  Causality s -> Causality (step s (CameraFulfil n)).
Proof.
  intros C. fields s. destruct cp as [|k]; [exact C|].
  open_cau C. destruct vr as [[so h vw vh]|]; close_cau.
Qed.

Lemma Causality_CameraReject (s : State) :
  Causality s -> Causality (step s CameraReject).
Proof.
  intros C. fields s. destruct cp as [|k]; [exact C|].
  open_cau C. close_cau.
Qed.

Lemma calls_positive (l : list Effect) :
  1 <= calls isGetUserMedia l -> In GetUserMedia l.
Proof.
  unfold calls. induction l as [|e l IH]; simpl; [lia|].
  destruct e; simpl; auto.
Qed.

Lemma Causality_LoadedMetadata (s : State) (w h : float) :
  Inv s -> Resources s -> Causality s ->
  Causality (step s (LoadedMetadata w h)).
Proof.
  intros H R C. fields s.
  destruct vr as [[[id|] [|] vw vh]|]; try exact C.
  destruct mo.
  - assert (G : In GetUserMedia lg).
    { apply calls_positive. destruct R as [_ _ R3 _ _ _ R7].
      red_state_in R3. red_state_in R7. specialize (R7 eq_refl).
      destruct ss as [|stream ss]; [|simpl in R3; lia].
      discriminate (R7 _ eq_refl). }
    clear R. open_inv H. open_cau C.
    destruct ml;
      [|destruct (H5 eq_refl) as (_ & _ & _ & _ & ? & _); discriminate].
    clear H1 H2 H3 H4 H5 H6 H7 H8 H9.
    destruct st, dc, dcs, di; close_cau.
  - clear H R. open_cau C. destruct ml, st, dc, dcs, di; close_cau.
Qed.

Lemma Causality_Tick (s : State) (id : positive) :
  Inv s -> Causality s -> Causality (step s (Tick id)).
Proof.
  intros H C. fields s.
  red_state. destruct (existsb (Pos.eqb id) ts) eqn:E; [|exact C].
  open_inv H. open_cau C.
  destruct st; [|destruct (H9 eq_refl) as [-> _]; discriminate E].
  clear H1 H2 H3 H4 H5 H6 H7 H8 H9.
  destruct vr, dc; close_cau.
Qed.

Lemma Causality_DetectionSettle (s : State) (r : Settled (list Detection)) :
  Inv s -> Causality s -> Causality (step s (DetectionSettle r)).
Proof.
  intros H C. unfold step.
  destruct (detectionsPending s) as [|k] eqn:Ek; [exact C|].
  destruct r as [ds|].
  - destruct (mounted s) eqn:Hm.
    + assert (Hr : refsAttached s = true)
        by (apply (inv_refs s H Hm); rewrite Ek; discriminate).
      destruct (refsAttached_inv s Hr) as (video & c & Hv & Hc).
      rewrite (detectFaces_settled_polled (with_detectionsPending k s)
                 video c ds Hm Hv Hc).
      clear H. fields s. open_cau C.
      destruct ds as [|d rest];
        [|pose proof (labelOf_isQualityLabel video (last rest d))];
        close_cau.
    + clear H. unfold detectFaces_settled.
      destruct (videoRef (with_detectionsPending k s)) eqn:Hv;
      destruct (displayCanvasRef (with_detectionsPending k s)) eqn:Hc.
      2-4: fields s; open_cau C; close_cau.
      rewrite forEach_unmounted by exact Hm.
      fields s. red_state_in Hm. subst mo.
      open_cau C. destruct ((0 <? List.length ds)%nat); close_cau.
  - clear H. fields s. open_cau C. unfold detectFaces_settled. close_cau.
Qed.

Lemma Causality_Click (s : State) (env : CaptureEnv) :
  Causality s -> Causality (step s (Click env)).
Proof.
  intros C. fields s.
  destruct mo; [|exact C]. destruct env as [[img|] [|]].
  all: open_cau C; destruct fd, vr; close_cau.
Qed.

Lemma Causality_Unmount (s : State) (b : bool) :
  Causality s -> Causality (step s (Unmount b)).
Proof.
  intros C. fields s. destruct mo; [|exact C].
  open_cau C.
  destruct b, cc, vr as [[[id|] hd vw vh]|], dcs, di; close_cau.
Qed.

Lemma Resources_step (s : State) (e : Event) :
  Inv s -> Resources s -> Resources (step s e).
Proof.
  destruct e.
  - apply Resources_ModelsFulfil.
  - apply Resources_ModelsReject.
  - apply Resources_CameraFulfil.
  - apply Resources_CameraReject.
  - apply Resources_LoadedMetadata.
  - apply Resources_Tick.
  - apply Resources_DetectionSettle.
  - apply Resources_Click.
  - apply Resources_Unmount.
Qed.

Lemma Causality_step (s : State) (e : Event) :
  Inv s -> Resources s -> Causality s -> Causality (step s e).
Proof.
  intros H R C. destruct e.
  - now apply Causality_ModelsFulfil.
  - now apply Causality_ModelsReject.
  - now apply Causality_CameraFulfil.
  - now apply Causality_CameraReject.
  - now apply Causality_LoadedMetadata.
  - now apply Causality_Tick.
  - now apply Causality_DetectionSettle.
  - now apply Causality_Click.
  - now apply Causality_Unmount.
Qed.

Lemma invariants_run (es : list Event) (s : State) :
  Inv s -> Resources s -> Causality s ->
  Inv (run s es) /\ Resources (run s es) /\ Causality (run s es).
Proof.
  revert s. induction es as [|e es IH]; intros s H R C; simpl; [auto|].
  apply IH.
  - now apply Inv_step.
  - now apply Resources_step.
  - now apply Causality_step.
Qed.

Lemma Resources_reachable (es : list Event) : Resources (run mount es).
Proof.
  apply (invariants_run es mount Inv_mount Resources_mount Causality_mount).
Qed.

Lemma Causality_reachable (es : list Event) : Causality (run mount es).
Proof.
  apply (invariants_run es mount Inv_mount Resources_mount Causality_mount).
Qed.

(** ** The camera is asked for once *)

(** X1.  In every execution the models are requested exactly once, the
    camera at most once, and the streams granted plus the requests still
    pending never exceed one: the component never holds two streams. *)
Theorem camera_requested_at_most_once (es : list Event) :
  calls isLoadModels (log (run mount es)) = 1 /\
  calls isGetUserMedia (log (run mount es)) <= 1 /\
  List.length (streams (run mount es)) + cameraPending (run mount es) <= 1.
Proof.
  destruct (Resources_reachable es) as [R1 [R2 _] R3 _ _ _ _].
  repeat split; [exact R1 | exact R2 | lia].
Qed.

(** ** The timer is started once *)

(** X2.  In every execution [setInterval] is called at most once, at most
    one timer is running, and a running timer is the one whose id is in
    [detectionIntervalRef], so that the cleanup of lines 151-155 can
    clear it. *)
Theorem timer_started_at_most_once (es : list Event) :
  calls isSetInterval (log (run mount es)) <= 1 /\
  List.length (timers (run mount es)) <= 1 /\
  (forall id, In id (timers (run mount es)) ->
              detectionIntervalRef (run mount es) = Some id /\
              mounted (run mount es) = true).
Proof.
  destruct (Resources_reachable es) as [_ _ _ [R4 _] R5 _ _].
  split; [exact R4|].
  destruct R5 as [E | (Hm & _ & id & E & Hd)]; rewrite E; simpl.
  - split; [lia | tauto].
  - split; [lia|]. intros id' [<- | []]. auto.
Qed.

Lemma timer_started_at_most_once_witness :
  In 1%positive (timers (run mount toStreaming)) /\
  detectionIntervalRef (run mount toStreaming) = Some 1%positive.
Proof.
  assert (H : In 1%positive (timers (run mount toStreaming)))
    by (vm_compute; auto).
  split; [exact H|].
  exact (proj1 (proj2 (proj2 (timer_started_at_most_once toStreaming)) _ H)).
Defined.

(** ** An orderly stop *)

Lemma existsb_isLive_ended (stream : MediaStream) :
  existsb isLive (map (fun _ => ended) stream) = false.
Proof. induction stream; simpl; auto. Qed.

(** What [unmount] leaves as it was, and what it always clears. *)
Lemma unmount_frame (s : State) (b : bool) :
  mounted (unmount b s) = false /\
  cameraPending (unmount b s) = cameraPending s /\
  detectionsPending (unmount b s) = detectionsPending s /\
  videoRef (unmount b s) = None /\
  refsAttached (unmount b s) = false /\
  (faceDetected (unmount b s), facesCount (unmount b s),
   faceQuality (unmount b s)) =
  (faceDetected s, facesCount s, faceQuality s) /\
  log (unmount b s) = log s.
Proof.
  fields s.
  destruct b, cc, vr as [[[id|] hd vw vh]|], dcs, di; red_state;
    repeat split.
Qed.

Lemma unmount_timers (s : State) (b : bool) :
  Resources s -> timers (unmount b s) = [].
Proof.
  intros [_ _ _ _ R5 _ _]. fields s. red_state_in R5.
  destruct R5 as [-> | (-> & -> & id & -> & ->)].
  - destruct b, cc, vr as [[[i|] hd vw vh]|], dcs, di; red_state;
      reflexivity.
  - destruct b, cc, vr as [[[i|] hd vw vh]|]; red_state; simpl;
      destruct (Pos.eq_dec id id); congruence.
Qed.

Lemma unmount_camera_off (s : State) :
  Inv s -> Resources s -> mounted s = true ->
  cameraOn (unmount false s) = false.
Proof.
  intros H [_ [R2 R2'] R3 _ _ R6 R7] Hm. pose proof (inv_loading s H) as H5.
  clear H. fields s. red_state_in Hm. subst mo.
  red_state_in R2. red_state_in R2'. red_state_in R3. red_state_in R6.
  red_state_in R7. red_state_in H5. specialize (R7 eq_refl).
  unfold cameraOn. destruct ml.
  - destruct (R6 eq_refl eq_refl) as [Hr ->].
    destruct ss as [|stream [|stream' ss]].
    + destruct vr as [[[i|] hd vw vh]|];
        [discriminate (R7 _ eq_refl)| |];
        destruct dcs, di; red_state; reflexivity.
    + destruct R7 as (Hl & v & Hv & Hs). subst vr. destruct v as [so hd vw vh].
      simpl in Hs. subst so.
      destruct dcs, di; red_state; simpl;
        rewrite existsb_isLive_ended; reflexivity.
    + unfold calls in *. simpl in R3. lia.
  - destruct (H5 eq_refl) as (-> & _ & _ & -> & -> & ->).
    specialize (R2' eq_refl). unfold calls in *.
    destruct ss; [|simpl in R3; lia].
    destruct dcs, di; red_state; reflexivity.
Qed.

(** Once stopped, the component stays stopped and does nothing more. *)
Lemma Stopped_step (s : State) (e : Event) :
  Stopped s ->
  Stopped (step s e) /\
  calls isDetectAllFaces (log (step s e)) = calls isDetectAllFaces (log s) /\
  calls isSetInterval (log (step s e)) = calls isSetInterval (log s) /\
  calls isGetUserMedia (log (step s e)) = calls isGetUserMedia (log s) /\
  onCaptureCalls (log (step s e)) = onCaptureCalls (log s) /\
  (faceDetected (step s e), facesCount (step s e), faceQuality (step s e)) =
  (faceDetected s, facesCount s, faceQuality s).
Proof.
  intros (Hm & Hr & Hv & Ht). unfold Stopped.
  fields s. red_state_in Hm. red_state_in Hr. red_state_in Hv.
  red_state_in Ht. subst mo vr ts.
  destruct e as [ | |n| |w h|id|r|env|b]; red_state.
  - destruct mp; red_state; repeat split.
  - destruct mp; red_state; repeat split.
  - destruct cp; red_state; repeat split.
  - destruct cp; red_state; repeat split.
  - repeat split.
  - repeat split.
  - destruct dp; [repeat split|]. destruct r; red_state; repeat split.
  - repeat split.
  - repeat split.
Qed.

Lemma Stopped_run (es : list Event) (s : State) :
  Stopped s ->
  Stopped (run s es) /\
  calls isDetectAllFaces (log (run s es)) = calls isDetectAllFaces (log s) /\
  calls isSetInterval (log (run s es)) = calls isSetInterval (log s) /\
  calls isGetUserMedia (log (run s es)) = calls isGetUserMedia (log s) /\
  onCaptureCalls (log (run s es)) = onCaptureCalls (log s) /\
  (faceDetected (run s es), facesCount (run s es), faceQuality (run s es)) =
  (faceDetected s, facesCount s, faceQuality s).
Proof.
  revert s. induction es as [|e es IH]; intros s Hs; simpl.
  - split; [exact Hs | repeat split].
  - destruct (Stopped_step s e Hs) as (Hs' & E1 & E2 & E3 & E4 & E5).
    destruct (IH _ Hs') as (Hs'' & F1 & F2 & F3 & F4 & F5).
    rewrite F1, F2, F3, F4, F5, E1, E2, E3, E4, E5.
    split; [exact Hs'' | repeat split].
Qed.

Lemma Stopped_unmount (s : State) (b : bool) :
  Resources s -> Stopped (unmount b s).
Proof.
  intros R. destruct (unmount_frame s b) as (Hm & _ & _ & Hv & Hr & _).
  unfold Stopped. rewrite (unmount_timers s b R). auto.
Qed.

(** X3.  Take any execution in which the component is still mounted and
    unmount it.  The timer is cleared, and no event that follows starts
    it again.  If moreover no camera request is pending and the cleanup
    runs with the refs still attached, every track is ended: the camera
    is off and stays off whatever happens next. *)
Theorem orderly_stop_releases_everything
        (es es' : list Event) (refsCleared : bool) :
  mounted (run mount es) = true ->
  timers (run (step (run mount es) (Unmount refsCleared)) es') = [] /\
  (refsCleared = false -> cameraPending (run mount es) = 0 ->
   cameraOn (run (step (run mount es) (Unmount refsCleared)) es') = false).
Proof.
  intros Hm. pose proof (Inv_reachable es) as H.
  pose proof (Resources_reachable es) as R.
  unfold step. rewrite Hm.
  pose proof (Stopped_unmount _ refsCleared R) as Hs.
  destruct (Stopped_run es' _ Hs) as ((_ & _ & _ & Ht) & _).
  split; [exact Ht|].
  intros -> Hc. unfold cameraOn.
  destruct (unmount_frame (run mount es) false) as (Hm' & Hc' & _).
  rewrite unmounted_run by (auto; congruence).
  now apply unmount_camera_off.
Qed.

Lemma orderly_stop_releases_everything_witness :
  mounted (run mount toStreaming) = true /\
  cameraPending (run mount toStreaming) = 0 /\
  cameraOn (run (step (run mount toStreaming) (Unmount false))
                [Tick 1; CameraFulfil 1; LoadedMetadata 640 480]) = false.
Proof.
  assert (Hm : mounted (run mount toStreaming) = true) by reflexivity.
  assert (Hc : cameraPending (run mount toStreaming) = 0) by reflexivity.
  split; [exact Hm|]. split; [exact Hc|].
  exact (proj2 (orderly_stop_releases_everything
                  toStreaming [Tick 1; CameraFulfil 1; LoadedMetadata 640 480]
                  false Hm) eq_refl Hc).
Defined.

(** ** After the stop *)

(** X4.  Once the component is unmounted nothing that happens later (a
    late timer tick, a detection call or a camera request that settles,
    a click) starts a detection call, a timer or a camera request, calls
    [onCapture], or changes the detection state. *)
Theorem nothing_happens_after_stop
        (es es' : list Event) (refsCleared : bool) :
  mounted (run mount es) = true ->
  let s := run mount es in
  let s' := run (step s (Unmount refsCleared)) es' in
  calls isDetectAllFaces (log s') = calls isDetectAllFaces (log s) /\
  calls isSetInterval (log s') = calls isSetInterval (log s) /\
  calls isGetUserMedia (log s') = calls isGetUserMedia (log s) /\
  onCaptureCalls (log s') = onCaptureCalls (log s) /\
  (faceDetected s', facesCount s', faceQuality s') =
  (faceDetected s, facesCount s, faceQuality s).
Proof.
  intros Hm. cbv zeta. pose proof (Resources_reachable es) as R.
  unfold step. rewrite Hm.
  destruct (Stopped_run es' _ (Stopped_unmount _ refsCleared R))
    as (_ & E1 & E2 & E3 & E4 & E5).
  destruct (unmount_frame (run mount es) refsCleared)
    as (_ & _ & _ & _ & _ & F & L).
  rewrite E1, E2, E3, E4, E5, L, F. repeat split.
Qed.

Lemma nothing_happens_after_stop_witness :
  mounted (run mount (toStreaming ++ [Tick 1])) = true /\
  calls isDetectAllFaces
    (log (run (step (run mount (toStreaming ++ [Tick 1])) (Unmount true))
              [Tick 1; DetectionSettle (Fulfilled [goodFace]); Click okCapture]))
  = calls isDetectAllFaces (log (run mount (toStreaming ++ [Tick 1]))).
Proof.
  assert (Hm : mounted (run mount (toStreaming ++ [Tick 1])) = true)
    by reflexivity.
  split; [exact Hm|].
  exact (proj1 (nothing_happens_after_stop
                  (toStreaming ++ [Tick 1])
                  [Tick 1; DetectionSettle (Fulfilled [goodFace]); Click okCapture]
                  true Hm)).
Defined.

(** ** What comes before what *)

(** X5.  In every execution a call of [detectAllFaces] has been made only
    if the models are loaded, the camera has been requested and the video
    has been started: the detector never runs on unloaded models or
    before the stream plays. *)
Theorem detection_needs_models_and_stream (es : list Event) :
  In DetectAllFaces (log (run mount es)) ->
  modelsLoaded (run mount es) = true /\
  isStreaming (run mount es) = true /\
  In GetUserMedia (log (run mount es)) /\
  In Play (log (run mount es)).
Proof.
  intros Hd. pose proof (Inv_reachable es) as H.
  pose proof (Causality_reachable es) as C.
  pose proof (cau_detect _ C Hd) as Hs.
  destruct (cau_playing _ C Hs) as [Hp Hg].
  repeat split; auto.
  destruct (modelsLoaded (run mount es)) eqn:Hl; [reflexivity|].
  destruct (inv_loading _ H Hl) as (_ & _ & _ & Hs' & _). congruence.
Qed.

Lemma detection_needs_models_and_stream_witness :
  In DetectAllFaces (log (run mount (toStreaming ++ [Tick 1]))) /\
  modelsLoaded (run mount (toStreaming ++ [Tick 1])) = true.
Proof.
  assert (Hd : In DetectAllFaces (log (run mount (toStreaming ++ [Tick 1]))))
    by (vm_compute; auto).
  split; [exact Hd|].
  exact (proj1 (detection_needs_models_and_stream _ Hd)).
Defined.

(** X6.  In every execution [onCapture] has been called only after a
    detection call was made: no image is handed to the caller before the
    detector has looked at the stream. *)
Theorem capture_only_after_detection (es : list Event) (img : string) :
  In (OnCapture img) (log (run mount es)) ->
  In DetectAllFaces (log (run mount es)) /\
  isStreaming (run mount es) = true.
Proof.
  intros Hc. pose proof (Causality_reachable es) as C.
  pose proof (cau_capture _ C img Hc) as Hd.
  split; [exact Hd | exact (cau_detect _ C Hd)].
Qed.

Lemma capture_only_after_detection_witness :
  In (OnCapture "data:image/jpeg;base64,AAAA")
     (log (run mount (toStreaming ++
             [Tick 1; DetectionSettle (Fulfilled [goodFace]);
              Click okCapture]))) /\
  In DetectAllFaces
     (log (run mount (toStreaming ++
             [Tick 1; DetectionSettle (Fulfilled [goodFace]);
              Click okCapture]))).
Proof.
  assert (Hc : In (OnCapture "data:image/jpeg;base64,AAAA")
                  (log (run mount (toStreaming ++
                          [Tick 1; DetectionSettle (Fulfilled [goodFace]);
                           Click okCapture]))))
    by (vm_compute; auto).
  split; [exact Hc|].
  exact (proj1 (capture_only_after_detection _ _ Hc)).
Defined.

(** X7.  In every execution [faceQuality] is the empty string or one of
    the three labels, and whenever [faceDetected] is true it is one of
    the three labels: a detected face is never shown without its
    positioning feedback. *)
Theorem detected_face_has_label (es : list Event) :
  (faceQuality (run mount es) = EmptyString \/
   isQualityLabel (faceQuality (run mount es))) /\
  (faceDetected (run mount es) = true ->
   isQualityLabel (faceQuality (run mount es)) /\
   faceQuality (run mount es) <> EmptyString).
Proof.
  pose proof (Causality_reachable es) as C.
  split; [exact (cau_label _ C)|].
  intros Hf. destruct (cau_face _ C Hf) as [_ Hq].
  split; [exact Hq|].
  destruct Hq as [E | [E | E]]; rewrite E; discriminate.
Qed.

Lemma detected_face_has_label_witness :
  faceDetected (run mount (toStreaming ++
                  [Tick 1; DetectionSettle (Fulfilled [goodFace])])) = true /\
  faceQuality (run mount (toStreaming ++
                 [Tick 1; DetectionSettle (Fulfilled [goodFace])]))
  <> EmptyString.
Proof.
  assert (Hf : faceDetected (run mount (toStreaming ++
                  [Tick 1; DetectionSettle (Fulfilled [goodFace])])) = true)
    by reflexivity.
  split; [exact Hf|].
  exact (proj2 (proj2 (detected_face_has_label _) Hf)).
Defined.

(** X8.  In every execution, as long as the component is mounted every
    track of every stream it was granted is live: nothing but the
    teardown ever stops the camera. *)
Theorem camera_stays_on_while_mounted
        (es : list Event) (stream : MediaStream) :
  mounted (run mount es) = true ->
  In stream (streams (run mount es)) ->
  forallb isLive stream = true.
Proof.
  intros Hm Hin. destruct (Resources_reachable es) as [_ [R2 _] R3 _ _ _ R7].
  specialize (R7 Hm).
  destruct (streams (run mount es)) as [|st [|st' rest]].
  - destruct Hin.
  - destruct Hin as [<- | []]. exact (proj1 R7).
  - simpl in R3. lia.
Qed.

Lemma camera_stays_on_while_mounted_witness :
  mounted (run mount toStreaming) = true /\
  In [live] (streams (run mount toStreaming)) /\
  forallb isLive [live] = true.
Proof.
  assert (Hm : mounted (run mount toStreaming) = true) by reflexivity.
  assert (Hi : In [live] (streams (run mount toStreaming)))
    by (vm_compute; auto).
  split; [exact Hm|]. split; [exact Hi|].
  exact (camera_stays_on_while_mounted toStreaming [live] Hm Hi).
Defined.

(** * The front end around the capture loop *)

(** ** The invariant of the shell *)

Ltac app_red :=
  lazy beta iota zeta delta
    [App.stage App.capturedImage App.results App.isLoading App.error
     App.backendOnline App.form App.healthPending App.analyzePending App.log
     App.with_stage App.with_capturedImage App.with_results
     App.with_isLoading App.with_error App.with_backendOnline App.with_form
     App.with_healthPending App.with_analyzePending App.with_log
     App.emit App.emitAll App.checkBackend App.checkBackend_settled
     App.handleCapture App.handleSearch_catch App.handleSearch
     App.handleSearch_settled App.handleNewSearch App.render
     App.runFormEffect App.step App.mount App.initial
     App.image App.user_name App.privacy_agreed App.name App.type App.bytes
     Api.healthCheck Api.analyzeFace
     Form.handleSubmit Form.onSubmit Form.submitDisabled
     Form.setPrivacyAgreed Form.privacyAgreed Form.errors_userName
     Form.initial Form.session_id Form.user_name Form.captured_image
     Form.privacy_policy_agreed Form.timestamp Form.uuid Form.now
     fold_left negb orb andb].

Ltac app_red_in H :=
  let g := fresh "g" in
  match goal with |- ?G => set (g := G) end;
  revert H; app_red; intro H; subst g.

Ltac app_fields s :=
  destruct s as [sg ci rs il er bo fm hp ap lg].

Ltac open_app I :=
  destruct I as [I1 I2 I3 I4 I5 I6 I7 I8 I9];
  app_red_in I1; app_red_in I2; app_red_in I3; app_red_in I4;
  app_red_in I5; app_red_in I6; app_red_in I7; app_red_in I8;
  app_red_in I9.

Ltac app_step :=
  match goal with
  | H : _ /\ _ |- _ => destruct H
  | H : _ \/ _ |- _ => destruct H
  | H : False |- _ => destruct H
  | H : exists _, _ |- _ => destruct H
  | H : ?a = ?a -> _ |- _ => specialize (H eq_refl)
  | H : ?a <> ?a |- _ => destruct (H eq_refl)
  | H : _ <-> _ |- _ => destruct H
  | H : Some _ = Some _ |- _ => injection H as H
  | H : App.AnalyzeFace _ = App.AnalyzeFace _ |- _ => injection H as H
  | H : ?P -> _, H' : ?P |- _ => specialize (H H')
  | H : ?a <> ?b -> _ |- _ =>
      let P := fresh in
      assert (P : a <> b) by discriminate; specialize (H P); clear P
  | H : (exists f, Some ?x = Some f) -> _ |- _ =>
      specialize (H (ex_intro _ x eq_refl))
  | H : forall fd, In (App.AnalyzeFace fd) ?l -> _,
    H' : In (App.AnalyzeFace ?x) ?l |- _ => destruct (H x H'); clear H'
  | |- ~ _ => intro
  | |- _ /\ _ => split
  | |- _ <-> _ => split
  | |- forall _, _ => intro
  end.

Ltac app_fin :=
  intros; repeat (progress (repeat app_step; subst; simpl in * ));
  try discriminate; try congruence; try lia; try tauto;
  try solve [eauto 6 | exfalso; eauto 6].

Ltac close_app := constructor; app_red; app_fin.

(** A name that passes the rules of lines 36-39 is sent as it is, and
    has at least two code units. *)
Lemma valid_userName (userName : string) :
  Form.validate_userName userName = None ->
  Api.orElse (Some userName) "Guest" = userName /\
  2 <= Form.utf16_length userName.
Proof.
  unfold Form.validate_userName, Api.orElse.
  destruct (String.eqb userName "") eqn:E; [discriminate|].
  destruct (Form.utf16_length userName <? 2)%nat eqn:L; [discriminate|].
  intros _. split; [reflexivity|]. apply Nat.ltb_ge in L. exact L.
Qed.

Lemma App_Inv_mount : App.Inv App.mount.
Proof.
  close_app.
Qed.

Lemma App_Inv_step (env : App.Env) (s : App.State) (e : App.Event) :
  App.Inv s -> App.Inv (App.step env s e).
Proof.
  intros I. app_fields s. destruct e as [h|img|checked|userName clock|h|].
  - (* HealthSettle *)
    destruct hp; [|exact I]. open_app I. destruct h; close_app.
  - (* Captured *)
    destruct sg; try exact I. open_app I. destruct fm; close_app.
  - (* SetPrivacy *)
    destruct fm as [[pa eu]|]; [|exact I]. open_app I. close_app.
  - (* Submit *)
    destruct fm as [[pa eu]|]; [|exact I].
    destruct il; [exact I|]. destruct pa; [|exact I].
    app_red. destruct (Form.validate_userName userName) eqn:V.
    + open_app I. destruct sg; close_app.
    + destruct (valid_userName userName V) as [Vn Vl].
      app_red. rewrite Vn. destruct ci as [img|].
      * destruct (App.atob env (App.base64Data img));
          open_app I; destruct sg, ap; close_app.
      * open_app I; destruct sg, ap; close_app.
  - (* AnalyzeSettle *)
    destruct ap as [|k]; [exact I|]. open_app I.
    assert (k = 0) by lia. subst k.
    destruct h; destruct sg, fm; close_app.
  - (* NewSearch *)
    destruct sg; try exact I. open_app I. destruct fm; close_app.
Qed.

Lemma App_Inv_run (env : App.Env) (es : list App.Event) (s : App.State) :
  App.Inv s -> App.Inv (App.run env s es).
Proof.
  revert s. induction es as [|e es IH]; intros s I; simpl; [exact I|].
  apply IH, App_Inv_step, I.
Qed.

Lemma App_Inv_reachable (env : App.Env) (es : list App.Event) :
  App.Inv (App.run env App.mount es).
Proof. apply App_Inv_run, App_Inv_mount. Qed.

(** ** The stages of the shell *)

(** X9.  In every execution of the shell each stage holds what it shows:
    in 'capture' there is no image, no result, no error and no form; in
    'form' there is a captured image and the form is mounted; in
    'results' there is an image and a result, no error banner, no
    spinner, no request pending and no form. *)
Theorem app_stages_hold_their_data (env : App.Env) (es : list App.Event) :
  let s := App.run env App.mount es in
  match App.stage s with
  | App.capture =>
      App.capturedImage s = None /\ App.results s = None /\
      App.error s = None /\ App.form s = None
  | App.form_stage =>
      App.capturedImage s <> None /\ App.form s <> None
  | App.results_stage =>
      App.capturedImage s <> None /\ App.results s <> None /\
      App.error s = None /\ App.form s = None /\
      App.isLoading s = false /\ App.analyzePending s = 0
  end.
Proof.
  cbv zeta. pose proof (App_Inv_reachable env es) as I.
  destruct (App.run env App.mount es) as [sg ci rs il er bo fm hp ap lg].
  open_app I. app_red. destruct sg, fm, il, ap; app_fin.
Qed.

(** X10.  In every execution at most one analysis request is in flight,
    the spinner ([isLoading]) is on exactly while one is, and that only
    happens in the 'form' stage with no error shown. *)
Theorem one_analysis_at_a_time (env : App.Env) (es : list App.Event) :
  let s := App.run env App.mount es in
  App.analyzePending s <= 1 /\
  (App.isLoading s = true <-> App.analyzePending s = 1) /\
  (App.analyzePending s = 1 ->
   App.stage s = App.form_stage /\ App.error s = None).
Proof.
  cbv zeta. destruct (App_Inv_reachable env es) as [_ _ I3 I4 I5 _ _ _ _].
  auto.
Qed.

Lemma one_analysis_at_a_time_witness :
  App.analyzePending (App.run App.sampleEnv App.mount App.toSubmitted) = 1 /\
  App.stage (App.run App.sampleEnv App.mount App.toSubmitted)
  = App.form_stage.
Proof.
  assert (H : App.analyzePending
                (App.run App.sampleEnv App.mount App.toSubmitted) = 1)
    by reflexivity.
  split; [exact H|].
  exact (proj1 (proj2 (proj2 (one_analysis_at_a_time _ _)) H)).
Defined.

(** X11.  Every analysis request the shell ever sends carries
    [privacy_agreed] true and a [user_name] of at least two code units:
    the rules of the form hold for what reaches the backend. *)
Theorem requests_are_valid
        (env : App.Env) (es : list App.Event) (fd : App.FormData) :
  In (App.AnalyzeFace fd) (App.log (App.run env App.mount es)) ->
  App.privacy_agreed fd = true /\
  2 <= Form.utf16_length (App.user_name fd).
Proof.
  intros H. exact (App.inv_requests _ (App_Inv_reachable env es) fd H).
Qed.

Lemma requests_are_valid_witness :
  In (App.AnalyzeFace
        {| App.image := {| App.name := "captured.jpg";
                           App.type := "image/jpeg";
                           App.bytes := [65; 65; 65; 65] |};
           App.user_name := "Ada"; App.privacy_agreed := true |})
     (App.log (App.run App.sampleEnv App.mount App.toSubmitted)) /\
  2 <= Form.utf16_length "Ada".
Proof.
  assert (H : In (App.AnalyzeFace
        {| App.image := {| App.name := "captured.jpg";
                           App.type := "image/jpeg";
                           App.bytes := [65; 65; 65; 65] |};
           App.user_name := "Ada"; App.privacy_agreed := true |})
     (App.log (App.run App.sampleEnv App.mount App.toSubmitted)))
    by (vm_compute; auto).
  split; [exact H|].
  exact (proj2 (requests_are_valid _ _ _ H)).
Defined.

(** ** How an analysis request ends *)

Lemma orElse_nonempty (x : option string) (d : string) :
  d <> EmptyString -> Api.orElse x d <> EmptyString.
Proof.
  intros Hd. unfold Api.orElse. destruct x as [t|]; [|exact Hd].
  destruct (String.eqb t "") eqn:E; [exact Hd|].
  now apply String.eqb_neq in E.
Qed.

Lemma orElse_keeps (m d : string) :
  m <> EmptyString -> Api.orElse (Some m) d = m.
Proof.
  intros Hm. unfold Api.orElse.
  destruct (String.eqb m "") eqn:E; [|reflexivity].
  now apply String.eqb_eq in E.
Qed.

(** X12.  Take any execution with an analysis request in flight.  When
    the request settles, nothing is pending any more and the spinner is
    off.  On a response the shell is in 'results' with that response, no
    error and no form.  On a failure it stays in 'form' with the form as
    it was and the image kept, and shows a non-empty error: the text the
    backend sent in [error], or 'Failed to analyze face'. *)
Theorem analysis_outcome
        (env : App.Env) (es : list App.Event) (h : Api.Http App.AnalysisResult) :
  App.analyzePending (App.run env App.mount es) <> 0 ->
  let s := App.run env App.mount es in
  let s' := App.step env s (App.AnalyzeSettle h) in
  App.analyzePending s' = 0 /\ App.isLoading s' = false /\
  App.capturedImage s' = App.capturedImage s /\
  match h with
  | Api.Response data =>
      App.stage s' = App.results_stage /\ App.results s' = Some data /\
      App.error s' = None /\ App.form s' = None
  | Api.Failure e =>
      App.stage s' = App.form_stage /\ App.form s' = App.form s /\
      App.results s' = App.results s /\
      App.error s' =
      Some (Api.orElse (Api.response_data_error e) "Failed to analyze face") /\
      Api.orElse (Api.response_data_error e) "Failed to analyze face"
      <> EmptyString
  end.
Proof.
  intros Hp. cbv zeta. pose proof (App_Inv_reachable env es) as I.
  destruct (App.run env App.mount es) as [sg ci rs il er bo fm hp ap lg].
  open_app I. app_red_in Hp. destruct ap as [|k]; [congruence|].
  assert (k = 0) by lia. subst k.
  destruct (I5 eq_refl) as [-> ->].
  destruct I2 as [_ I2]. destruct (I2 eq_refl) as [f ->].
  assert (N : Api.orElse (Api.response_data_error
                            match h with
                            | Api.Response _ => {| Api.response := None |}
                            | Api.Failure e => e
                            end) "Failed to analyze face" <> EmptyString)
    by (apply orElse_nonempty; discriminate).
  destruct h as [data|e]; app_red; repeat split; auto.
  now rewrite orElse_keeps.
Qed.

Lemma analysis_outcome_witness :
  App.analyzePending (App.run App.sampleEnv App.mount App.toSubmitted) <> 0 /\
  App.error
    (App.step App.sampleEnv (App.run App.sampleEnv App.mount App.toSubmitted)
       (App.AnalyzeSettle (Api.Failure {| Api.response := None |})))
  = Some "Failed to analyze face"%string.
Proof.
  assert (H : App.analyzePending
                (App.run App.sampleEnv App.mount App.toSubmitted) <> 0)
    by (vm_compute; discriminate).
  split; [exact H|].
  destruct (analysis_outcome App.sampleEnv App.toSubmitted
              (Api.Failure {| Api.response := None |}) H)
    as (_ & _ & _ & _ & _ & _ & E & _).
  exact E.
Defined.

(** X13.  In every execution, New Search from the 'results' stage puts
    the shell back into its initial state; only the backend indicator
    and the log of what was done remain. *)
Theorem new_search_starts_over (env : App.Env) (es : list App.Event) :
  App.stage (App.run env App.mount es) = App.results_stage ->
  let s := App.run env App.mount es in
  App.step env s App.NewSearch =
  App.with_log (App.log s)
    (App.with_healthPending (App.healthPending s)
       (App.with_backendOnline (App.backendOnline s) App.initial)).
Proof.
  intros Hs. cbv zeta. pose proof (App_Inv_reachable env es) as I.
  destruct (App.run env App.mount es) as [sg ci rs il er bo fm hp ap lg].
  open_app I. app_red_in Hs. subst sg.
  destruct il, ap, fm; app_red; app_fin.
Qed.

Lemma new_search_starts_over_witness :
  App.stage
    (App.run App.sampleEnv App.mount
       (App.toSubmitted ++
        [App.AnalyzeSettle (Api.Response App.sampleResult)]))
  = App.results_stage /\
  App.capturedImage
    (App.step App.sampleEnv
       (App.run App.sampleEnv App.mount
          (App.toSubmitted ++
           [App.AnalyzeSettle (Api.Response App.sampleResult)]))
       App.NewSearch) = None.
Proof.
  assert (H : App.stage
    (App.run App.sampleEnv App.mount
       (App.toSubmitted ++
        [App.AnalyzeSettle (Api.Response App.sampleResult)]))
    = App.results_stage) by reflexivity.
  split; [exact H|].
  rewrite (new_search_starts_over App.sampleEnv _ H). reflexivity.
Defined.

(** ** From the captured image to the request *)

Lemma split_comma_nonempty (s : string) : App.split_comma s <> [].
Proof.
  destruct s as [|c rest]; simpl; [discriminate|].
  destruct (App.split_comma rest); [discriminate|].
  destruct (Ascii.eqb c ","%char); discriminate.
Qed.

Lemma split_comma_plain (s : string) :
  App.hasComma s = false -> App.split_comma s = [s].
Proof.
  induction s as [|c rest IH]; simpl; [reflexivity|].
  destruct (Ascii.eqb c ","%char); simpl; [discriminate|].
  intros H. now rewrite IH.
Qed.

Lemma split_comma_first (prefix rest : string) :
  App.hasComma prefix = false ->
  App.split_comma (prefix ++ String ","%char rest)%string =
  prefix :: App.split_comma rest.
Proof.
  induction prefix as [|c p IH]; simpl.
  - intros _. destruct (App.split_comma rest) eqn:E; [|reflexivity].
    now destruct (split_comma_nonempty rest).
  - destruct (Ascii.eqb c ","%char); simpl; [discriminate|].
    intros H. now rewrite IH.
Qed.

(** X14.  Which part of the captured image is decoded (line 131).  A
    text without a comma is taken whole.  Of a data URL, a prefix
    without a comma followed by a comma and a payload, the payload is
    taken, up to its own first comma if it has one.  When that piece is
    empty the whole text is taken, prefix and comma included. *)
Theorem base64Data_of_data_url :
  (forall text, App.hasComma text = false -> App.base64Data text = text) /\
  (forall prefix payload,
      App.hasComma prefix = false -> App.hasComma payload = false ->
      payload <> EmptyString ->
      App.base64Data (prefix ++ String ","%char payload)%string = payload) /\
  (forall prefix payload more,
      App.hasComma prefix = false -> App.hasComma payload = false ->
      payload <> EmptyString ->
      App.base64Data
        (prefix ++ String ","%char (payload ++ String ","%char more))%string
      = payload) /\
  (forall prefix more,
      App.hasComma prefix = false ->
      App.base64Data (prefix ++ String ","%char (String ","%char more))%string
      = (prefix ++ String ","%char (String ","%char more))%string) /\
  (forall prefix,
      App.hasComma prefix = false ->
      App.base64Data (prefix ++ String ","%char EmptyString)%string
      = (prefix ++ String ","%char EmptyString)%string).
Proof.
  unfold App.base64Data. repeat split.
  - intros text H. now rewrite split_comma_plain.
  - intros prefix payload Hp Hq Hn.
    rewrite split_comma_first, split_comma_plain by assumption. simpl.
    now apply orElse_keeps.
  - intros prefix payload more Hp Hq Hn.
    rewrite !split_comma_first by assumption. simpl.
    now apply orElse_keeps.
  - intros prefix more Hp.
    rewrite split_comma_first by assumption.
    change (String ","%char more) with (EmptyString ++ String ","%char more)%string.
    rewrite (split_comma_first EmptyString more eq_refl). reflexivity.
  - intros prefix Hp. rewrite split_comma_first by assumption. reflexivity.
Qed.

Lemma base64Data_of_data_url_witness :
  App.hasComma "data:image/jpeg;base64" = false /\
  App.hasComma "AAAA" = false /\
  App.base64Data "data:image/jpeg;base64,AAAA" = "AAAA"%string.
Proof.
  split; [reflexivity|]. split; [reflexivity|].
  exact (proj1 (proj2 base64Data_of_data_url)
           "data:image/jpeg;base64"%string "AAAA"%string
           eq_refl eq_refl ltac:(discriminate)).
Defined.

(** X15.  From the form to the request.  In the 'form' stage with the
    spinner off, the box ticked, a name that passes the rules and a
    captured data URL whose payload [atob] decodes, submitting sends
    exactly one request: the file 'captured.jpg' holding the char codes
    of the decoded text, the name as typed, and [privacy_agreed] true;
    the spinner goes on.  When [atob] throws instead, nothing is sent
    (the one thing the shell does outside is the [console.error] of the
    [catch]), no request is pending in its name, the spinner is off again
    and the exception's text is shown. *)
Theorem submit_sends_captured_image
        (env : App.Env) (s : App.State) (f : Form.State)
        (userName prefix payload : string) (clock : Form.Clock) :
  App.form s = Some f -> Form.privacyAgreed f = true ->
  App.isLoading s = false ->
  Form.validate_userName userName = None ->
  App.capturedImage s = Some (prefix ++ String ","%char payload)%string ->
  App.hasComma prefix = false -> App.hasComma payload = false ->
  payload <> EmptyString ->
  let s' := App.step env s (App.Submit userName clock) in
  match App.atob env payload with
  | Api.Ok byteCharacters =>
      App.log s' =
      App.AnalyzeFace
        {| App.image := {| App.name := "captured.jpg";
                           App.type := "image/jpeg";
                           App.bytes := App.byteNumbers byteCharacters |};
           App.user_name := userName;
           App.privacy_agreed := true |} :: App.log s /\
      App.isLoading s' = true /\
      App.analyzePending s' = S (App.analyzePending s) /\
      App.error s' = None
  | Api.Err message =>
      App.analyzePending s' = App.analyzePending s /\
      App.isLoading s' = false /\
      App.error s' =
      Some (Api.orElse (Some message) "Analysis failed. Please try again.") /\
      App.log s' = App.ConsoleError "Analysis error:" :: App.log s /\
      (forall fd, In (App.AnalyzeFace fd) (App.log s') ->
                  In (App.AnalyzeFace fd) (App.log s))
  end.
Proof.
  intros Hf Hp Hl Hv Hc Hpre Hpay Hne. cbv zeta.
  destruct (valid_userName userName Hv) as [Vn _].
  pose proof (proj1 (proj2 base64Data_of_data_url) prefix payload
                Hpre Hpay Hne) as Hb.
  destruct s as [sg ci rs il er bo fm hp ap lg]. destruct f as [pa eu].
  app_red_in Hf. app_red_in Hp. app_red_in Hl. app_red_in Hc.
  subst fm pa il ci. app_red. rewrite Hv. app_red. rewrite Hb, Vn.
  destruct (App.atob env payload) as [byteCharacters|message];
    destruct sg; app_red; repeat split;
    intros fd [H | H]; (discriminate H || exact H).
Qed.

Lemma submit_sends_captured_image_witness :
  App.isLoading
    (App.step App.sampleEnv
       (App.run App.sampleEnv App.mount
          [App.Captured "data:image/jpeg;base64,AAAA"; App.SetPrivacy true])
       (App.Submit "Ada" App.sampleClock)) = true /\
  App.log
    (App.step App.throwingEnv
       (App.run App.throwingEnv App.mount
          [App.Captured "data:image/jpeg;base64,AAAA"; App.SetPrivacy true])
       (App.Submit "Ada" App.sampleClock)) =
  App.ConsoleError "Analysis error:"
    :: App.log
         (App.run App.throwingEnv App.mount
            [App.Captured "data:image/jpeg;base64,AAAA"; App.SetPrivacy true]).
Proof.
  pose proof (submit_sends_captured_image App.sampleEnv
    (App.run App.sampleEnv App.mount
       [App.Captured "data:image/jpeg;base64,AAAA"; App.SetPrivacy true])
    {| Form.privacyAgreed := true; Form.errors_userName := None |}
    "Ada" "data:image/jpeg;base64" "AAAA" App.sampleClock
    eq_refl eq_refl eq_refl eq_refl eq_refl eq_refl eq_refl
    ltac:(discriminate)) as H.
  pose proof (submit_sends_captured_image App.throwingEnv
    (App.run App.throwingEnv App.mount
       [App.Captured "data:image/jpeg;base64,AAAA"; App.SetPrivacy true])
    {| Form.privacyAgreed := true; Form.errors_userName := None |}
    "Ada" "data:image/jpeg;base64" "AAAA" App.sampleClock
    eq_refl eq_refl eq_refl eq_refl eq_refl eq_refl eq_refl
    ltac:(discriminate)) as G.
  split.
  - exact (proj1 (proj2 H)).
  - exact (proj1 (proj2 (proj2 (proj2 G)))).
Defined.

(** ** The form on its own *)

(** X16.  Whatever image and clock the form is given, [onSearch] is
    called only when the box is ticked and the name passes both rules
    (not empty, at least two code units); the payload then carries the
    name as typed, the image it was given and [privacy_policy_agreed]
    true, and no validation error is left. *)
Theorem form_calls_onSearch_only_when_valid
        (capturedImage : option string) (clock : Form.Clock)
        (userName : string) (s : Form.State) (payload : Form.Payload) :
  In (Form.OnSearch payload)
     (snd (Form.handleSubmit capturedImage clock userName s)) ->
  Form.privacyAgreed s = true /\
  userName <> EmptyString /\ 2 <= Form.utf16_length userName /\
  Form.user_name payload = userName /\
  Form.captured_image payload = capturedImage /\
  Form.privacy_policy_agreed payload = true /\
  Form.errors_userName
    (fst (Form.handleSubmit capturedImage clock userName s)) = None.
Proof.
  unfold Form.handleSubmit, Form.onSubmit, Form.validate_userName.
  destruct (String.eqb userName "") eqn:E; [intros []|].
  destruct (Form.utf16_length userName <? 2)%nat eqn:L; [intros []|].
  destruct (Form.privacyAgreed s) eqn:P; simpl.
  - intros [H | []]. injection H as <-. simpl.
    apply String.eqb_neq in E. apply Nat.ltb_ge in L.
    repeat split; auto.
  - intros [H | []]. discriminate H.
Qed.

Lemma form_calls_onSearch_only_when_valid_witness :
  Form.captured_image
    {| Form.session_id := "0000-0000"; Form.user_name := "Ada";
       Form.captured_image := Some "data:,AAAA"%string;
       Form.privacy_policy_agreed := true;
       Form.timestamp := "2024-01-01T00:00:00.000Z" |}
  = Some "data:,AAAA"%string /\
  2 <= Form.utf16_length "Ada".
Proof.
  assert (H : In (Form.OnSearch
                    {| Form.session_id := "0000-0000"; Form.user_name := "Ada";
                       Form.captured_image := Some "data:,AAAA"%string;
                       Form.privacy_policy_agreed := true;
                       Form.timestamp := "2024-01-01T00:00:00.000Z" |})
                 (snd (Form.handleSubmit (Some "data:,AAAA"%string)
                         App.sampleClock "Ada"
                         {| Form.privacyAgreed := true;
                            Form.errors_userName := None |})))
    by (vm_compute; auto).
  destruct (form_calls_onSearch_only_when_valid _ _ _ _ _ H)
    as (_ & _ & L & _ & C & _).
  split; [exact C | exact L].
Defined.

(** ** The backend indicator *)

(** No event but the settling health request touches the indicator. *)
Lemma health_frame (env : App.Env) (s : App.State) (e : App.Event) :
  (forall h, e <> App.HealthSettle h) \/ App.healthPending s = false ->
  App.backendOnline (App.step env s e) = App.backendOnline s /\
  App.healthPending (App.step env s e) = App.healthPending s.
Proof.
  intros He. destruct s as [sg ci rs il er bo fm hp ap lg].
  destruct e as [h|img|checked|userName clock|h|]; app_red.
  - destruct He as [He | He]; [now destruct (He h)|].
    app_red_in He. subst hp. split; reflexivity.
  - destruct sg, fm; split; reflexivity.
  - destruct fm; split; reflexivity.
  - destruct fm as [[pa eu]|]; [|split; reflexivity].
    destruct il, pa; try (split; reflexivity). app_red.
    destruct (Form.validate_userName userName); app_red.
    + destruct sg; split; reflexivity.
    + destruct ci as [img|]; [destruct (App.atob env (App.base64Data img))|];
        destruct sg; split; reflexivity.
  - destruct ap; [split; reflexivity|].
    destruct h; destruct sg, fm; split; reflexivity.
  - destruct sg, fm; split; reflexivity.
Qed.

Lemma health_settled_run (env : App.Env) (es : list App.Event) (s : App.State) :
  App.healthPending s = false ->
  App.backendOnline (App.run env s es) = App.backendOnline s /\
  App.healthPending (App.run env s es) = false.
Proof.
  revert s. induction es as [|e es IH]; intros s Hp; simpl; [auto|].
  destruct (health_frame env s e (or_intror Hp)) as [Hb Hh].
  destruct (IH (App.step env s e)) as [Hb' Hh']; [congruence|].
  split; congruence.
Qed.

(** While the health request is pending the indicator has its initial
    value. *)
Lemma health_pending_offline (env : App.Env) (es : list App.Event) :
  App.healthPending (App.run env App.mount es) = true ->
  App.backendOnline (App.run env App.mount es) = false.
Proof.
  assert (G : forall s,
             (App.healthPending s = true -> App.backendOnline s = false) ->
             App.healthPending (App.run env s es) = true ->
             App.backendOnline (App.run env s es) = false).
  { induction es as [|e es IH]; intros s Hs; simpl; [exact Hs|].
    apply IH. intros Hp.
    destruct (App.healthPending s) eqn:Hq.
    - assert (He : (exists h, e = App.HealthSettle h) \/
                   (forall h, e <> App.HealthSettle h)).
      { destruct e as [h|img|checked|userName clock|h|];
          [left; exists h; reflexivity|right; intros h' ?; discriminate ..]. }
      destruct He as [[h ->] | He].
      + exfalso. revert Hp. clear Hs.
        destruct s as [sg ci rs il er bo fm hp ap lg].
        app_red_in Hq. subst hp. app_red. destruct h; app_red; discriminate.
      + destruct (health_frame env s e (or_introl He)) as [Hb _].
        rewrite Hb. apply Hs. reflexivity.
    - destruct (health_frame env s e (or_intror Hq)) as [_ Hh]. congruence. }
  apply G. reflexivity.
Qed.

(** X17.  In every execution the health check is requested exactly once.
    While it is pending the indicator is off.  When it settles, the
    indicator is on if the request was answered and off if it failed, and
    it keeps that value whatever happens next: once the request has
    settled no event changes [backendOnline] any more. *)
Theorem backend_checked_once (env : App.Env) (es : list App.Event) :
  let s := App.run env App.mount es in
  List.length (filter App.isHealthCheck (App.log s)) = 1 /\
  (App.healthPending s = false ->
   forall e, App.backendOnline (App.step env s e) = App.backendOnline s /\
             App.healthPending (App.step env s e) = false) /\
  (App.healthPending s = true ->
   App.backendOnline s = false /\
   forall h es',
     App.backendOnline
       (App.run env (App.step env s (App.HealthSettle h)) es') =
     match h with
     | Api.Response _ => true
     | Api.Failure _ => false
     end /\
     App.healthPending
       (App.run env (App.step env s (App.HealthSettle h)) es') = false).
Proof.
  cbv zeta. split; [exact (App.inv_health _ (App_Inv_reachable env es))|].
  split.
  - intros Hp e.
    destruct (health_frame env _ e (or_intror Hp)) as [Hb Hh].
    split; congruence.
  - intros Hp. split; [now apply health_pending_offline|].
    intros h es'.
    assert (E : App.backendOnline
                  (App.step env (App.run env App.mount es) (App.HealthSettle h))
                = match h with
                  | Api.Response _ => true
                  | Api.Failure _ => false
                  end /\
                App.healthPending
                  (App.step env (App.run env App.mount es) (App.HealthSettle h))
                = false).
    { destruct (App.run env App.mount es) as [sg ci rs il er bo fm hp ap lg].
      app_red_in Hp. subst hp. app_red. destruct h; app_red; split; reflexivity. }
    destruct E as [Eb Eh].
    destruct (health_settled_run env es' _ Eh) as [Fb Fh].
    split; congruence.
Qed.

Lemma backend_checked_once_witness :
  App.healthPending
    (App.run App.sampleEnv App.mount
       [App.HealthSettle (Api.Failure {| Api.response := None |})]) = false /\
  App.backendOnline
    (App.step App.sampleEnv
       (App.run App.sampleEnv App.mount
          [App.HealthSettle (Api.Failure {| Api.response := None |})])
       (App.HealthSettle (Api.Response tt))) = false /\
  App.healthPending (App.run App.sampleEnv App.mount []) = true /\
  App.backendOnline
    (App.run App.sampleEnv
       (App.step App.sampleEnv (App.run App.sampleEnv App.mount [])
          (App.HealthSettle (Api.Response tt)))
       App.toSubmitted) = true.
Proof.
  assert (H : App.healthPending
    (App.run App.sampleEnv App.mount
       [App.HealthSettle (Api.Failure {| Api.response := None |})]) = false)
    by reflexivity.
  assert (G : App.healthPending (App.run App.sampleEnv App.mount []) = true)
    by reflexivity.
  split; [exact H|]. split.
  - exact (proj1 (proj1 (proj2 (backend_checked_once App.sampleEnv
             [App.HealthSettle (Api.Failure {| Api.response := None |})])) H
             (App.HealthSettle (Api.Response tt)))).
  - split; [exact G|].
    exact (proj1 (proj2 (proj2 (proj2 (backend_checked_once App.sampleEnv [])) G)
                    (Api.Response tt) App.toSubmitted)).
Defined.

(** ** The client's errors *)

(** X18.  When the request fails, each of the five client functions
    gives back an error and never data, and the error's message is never
    empty.  [searchFaces] passes on a non-empty [detail] of the response
    body, [getLocalImages], [getStorageStats] and [analyzeFace] a
    non-empty [error]; with no response, no body, no such field or an
    empty one, each falls back on its own message.  [healthCheck] never
    looks at the body. *)
Theorem api_failures_have_messages (A : Type) (e : Api.AxiosError) :
  (forall f, In f [@Api.searchFaces A; @Api.healthCheck A;
                   @Api.getLocalImages A; @Api.getStorageStats A;
                   @Api.analyzeFace A] ->
             exists message,
               snd (f (Api.Failure e)) = Api.Err message /\
               message <> EmptyString) /\
  (forall text, text <> EmptyString ->
     (Api.response_data_detail e = Some text ->
      snd (@Api.searchFaces A (Api.Failure e)) = Api.Err text) /\
     (Api.response_data_error e = Some text ->
      snd (@Api.getLocalImages A (Api.Failure e)) = Api.Err text /\
      snd (@Api.getStorageStats A (Api.Failure e)) = Api.Err text /\
      snd (@Api.analyzeFace A (Api.Failure e)) = Api.Err text)) /\
  ((Api.response_data_detail e = None \/
    Api.response_data_detail e = Some EmptyString) ->
   snd (@Api.searchFaces A (Api.Failure e)) = Api.Err "Search failed") /\
  ((Api.response_data_error e = None \/
    Api.response_data_error e = Some EmptyString) ->
   snd (@Api.getLocalImages A (Api.Failure e))
   = Api.Err "Failed to fetch local images" /\
   snd (@Api.getStorageStats A (Api.Failure e))
   = Api.Err "Failed to fetch storage stats" /\
   snd (@Api.analyzeFace A (Api.Failure e))
   = Api.Err "Failed to analyze face") /\
  snd (@Api.healthCheck A (Api.Failure e)) = Api.Err "Backend unreachable".
Proof.
  split; [|split; [|split; [|split]]].
  - intros f [<- | [<- | [<- | [<- | [<- | []]]]]]; simpl; eexists;
      (split; [reflexivity|]); try (apply orElse_nonempty); discriminate.
  - intros text Ht. split.
    + intros H. simpl. rewrite H. now rewrite orElse_keeps.
    + intros H. repeat split; simpl; rewrite H; now rewrite orElse_keeps.
  - intros [H | H]; simpl; rewrite H; reflexivity.
  - intros [H | H]; repeat split; simpl; rewrite H; reflexivity.
  - reflexivity.
Qed.

Lemma api_failures_have_messages_witness :
  Api.response_data_error
    {| Api.response :=
         Some (Some {| Api.detail := None;
                       Api.error := Some "No face found"%string |}) |}
  = Some "No face found"%string /\
  snd (@Api.analyzeFace unit
         (Api.Failure
            {| Api.response :=
                 Some (Some {| Api.detail := None;
                               Api.error := Some "No face found"%string |}) |}))
  = Api.Err "No face found".
Proof.
  split; [reflexivity|].
  destruct (api_failures_have_messages unit
              {| Api.response :=
                   Some (Some {| Api.detail := None;
                                 Api.error := Some "No face found"%string |}) |})
    as (_ & B & _).
  destruct (B "No face found"%string ltac:(discriminate)) as [_ C].
  exact (proj2 (proj2 (C eq_refl))).
Defined.
